(** * agent-chat-ui: the Thread controller

    A shallow embedding of the controller logic of
    [src/components/thread/index.tsx] and of its two sibling variants (the
    file-upload variant and the welcome-screen variant with the lucky-prompt
    button): the submission handlers, the error de-duplication effect, the
    first-token effect, the thread switch and the full-screen selector.

    React state and refs are one record, [ThreadState]; every handler and effect
    is a function from the state (and from what the stream context exposes at
    that render) to the next state and the list of outward effects it performs
    (a dispatch to the stream, a toast). *)

From Stdlib Require Import String Ascii List Bool Arith Lia.
From stdpp Require Import gmap strings list fin_maps pretty.
Import ListNotations.

Open Scope string_scope.
Open Scope list_scope.

(* ===================================================================== *)
(** ** Data model *)
(* ===================================================================== *)

(** A content block of a multimodal human message: typed text, or an
    attachment produced by the upload hook (opaque here: mime type and
    payload). *)
Inductive ContentBlock : Type :=
| TextBlock (text : string)
| AttachmentBlock (mime data : string).

(** [Message["content"]]: a plain string or a list of blocks; [ContentUndefined]
    is JavaScript's [undefined], which an out-of-range array read yields. *)
Inductive MessageContent : Type :=
| ContentString (s : string)
| ContentBlocks (bs : list ContentBlock)
| ContentUndefined.

Record ToolCall : Type := mkToolCall {
  tc_id : string;
  tc_name : string;
  tc_args : string
}.

Inductive MessageType : Type := human | ai | tool | system.

(** The SDK's [Message] is a union tagged by [type]. *)
Inductive Message : Type :=
| HumanMessage (id : string) (content : MessageContent)
| AIMessage (id : string) (content : MessageContent) (tool_calls : list ToolCall)
| ToolMessage (id : string) (tool_call_id : string) (content : MessageContent)
| SystemMessage (id : string) (content : MessageContent).

Definition msg_type (m : Message) : MessageType :=
  match m with
  | HumanMessage _ _ => human
  | AIMessage _ _ _ => ai
  | ToolMessage _ _ _ => tool
  | SystemMessage _ _ => system
  end.

Definition msg_id (m : Message) : string :=
  match m with
  | HumanMessage i _ | AIMessage i _ _ | ToolMessage i _ _ | SystemMessage i _ => i
  end.

Definition msg_content (m : Message) : MessageContent :=
  match m with
  | HumanMessage _ c | AIMessage _ c _ | ToolMessage _ _ c | SystemMessage _ c => c
  end.

Definition is_ai (m : Message) : bool :=
  match m with AIMessage _ _ _ => true | _ => false end.

(** An out-of-band UI payload of [values.ui]. *)
Record UIMessage : Type := mkUI {
  ui_id : string;
  ui_name : string;
  ui_props : string
}.

(** The artifact side channel, [Record<string, unknown>]; the values are
    opaque and stand here as text. *)
Abbreviation ArtifactContext := (gmap string string).

(** [stream.values]: every field may be missing ([None] is [undefined]). *)
Record StreamValues : Type := mkValues {
  sv_messages : option (list Message);
  sv_ui : option (list UIMessage);
  sv_context : option ArtifactContext
}.

(** [stream.error] is untyped; the effect reads only its [message] field,
    which an arbitrary error value may lack. *)
Record StreamError : Type := mkError {
  err_message : option string
}.

(** What [useStreamContext()] exposes at one render. *)
Record Stream : Type := mkStream {
  messages : list Message;
  isLoading : bool;
  error : option StreamError;
  values : StreamValues
}.

(** The options handed to [stream.submit]. *)
Record SubmitOptions : Type := mkOptions {
  streamMode : list string;
  optimisticValues : StreamValues -> StreamValues
}.

(** One call [stream.submit({ messages, context }, options)]. *)
Record Submission : Type := mkSubmission {
  sub_messages : list Message;
  sub_context : option ArtifactContext;
  sub_options : SubmitOptions
}.

Inductive Effect : Type :=
| Submit (s : Submission)
| ToastError (title : string) (message : string).

(** Local state of the [Thread] component: the [useState] cells, the two
    refs and the artifact hooks' state. [contentBlocks] belongs to the
    upload variant only. *)
Record ThreadState : Type := mkState {
  threadId : option string;
  input : string;
  contentBlocks : list ContentBlock;
  firstTokenReceived : bool;
  lastError : option string;
  prevMessageLength : nat;
  artifactContext : ArtifactContext;
  artifactOpen : bool
}.

Definition setInput (v : string) (st : ThreadState) : ThreadState :=
  mkState (threadId st) v (contentBlocks st) (firstTokenReceived st)
          (lastError st) (prevMessageLength st) (artifactContext st) (artifactOpen st).

Definition setContentBlocks (v : list ContentBlock) (st : ThreadState) : ThreadState :=
  mkState (threadId st) (input st) v (firstTokenReceived st)
          (lastError st) (prevMessageLength st) (artifactContext st) (artifactOpen st).

Definition setFirstTokenReceived (v : bool) (st : ThreadState) : ThreadState :=
  mkState (threadId st) (input st) (contentBlocks st) v
          (lastError st) (prevMessageLength st) (artifactContext st) (artifactOpen st).

Definition setLastError (v : option string) (st : ThreadState) : ThreadState :=
  mkState (threadId st) (input st) (contentBlocks st) (firstTokenReceived st)
          v (prevMessageLength st) (artifactContext st) (artifactOpen st).

Definition setPrevMessageLength (v : nat) (st : ThreadState) : ThreadState :=
  mkState (threadId st) (input st) (contentBlocks st) (firstTokenReceived st)
          (lastError st) v (artifactContext st) (artifactOpen st).

Definition setArtifactContext (v : ArtifactContext) (st : ThreadState) : ThreadState :=
  mkState (threadId st) (input st) (contentBlocks st) (firstTokenReceived st)
          (lastError st) (prevMessageLength st) v (artifactOpen st).

Definition _setThreadId (v : option string) (st : ThreadState) : ThreadState :=
  mkState v (input st) (contentBlocks st) (firstTokenReceived st)
          (lastError st) (prevMessageLength st) (artifactContext st) (artifactOpen st).

Definition closeArtifact (st : ThreadState) : ThreadState :=
  mkState (threadId st) (input st) (contentBlocks st) (firstTokenReceived st)
          (lastError st) (prevMessageLength st) (artifactContext st) false.

(** The state of a freshly mounted component. *)
Definition initialState : ThreadState :=
  mkState None "" [] false None 0 ∅ false.

(* ===================================================================== *)
(** ** [String.prototype.trim] *)
(* ===================================================================== *)

(** A text is the sequence of its code units, here those below 256, one per
    [ascii]. ECMAScript's WhiteSpace and LineTerminator code points in that
    range: TAB, LF, VT, FF, CR, SP and NBSP. *)
Definition isWhiteSpace (c : ascii) : bool :=
  match nat_of_ascii c with
  | 9 | 10 | 11 | 12 | 13 | 32 | 160 => true
  | _ => false
  end.

Definition isEmpty (s : string) : bool :=
  match s with EmptyString => true | String _ _ => false end.

Fixpoint trimStart (s : string) : string :=
  match s with
  | EmptyString => EmptyString
  | String c r => if isWhiteSpace c then trimStart r else s
  end.

Fixpoint trimEnd (s : string) : string :=
  match s with
  | EmptyString => EmptyString
  | String c r =>
      let r' := trimEnd r in
      if isWhiteSpace c && isEmpty r' then EmptyString else String c r'
  end.

Definition trim (s : string) : string := trimEnd (trimStart s).

(** "Empty or whitespace-only", character by character. *)
Fixpoint whitespaceOnly (s : string) : bool :=
  match s with
  | EmptyString => true
  | String c r => isWhiteSpace c && whitespaceOnly r
  end.

(* ===================================================================== *)
(** ** Error de-duplication effect *)
(* ===================================================================== *)

(** JavaScript truthiness of the [message] read off the error: [undefined]
    and the empty string are falsy. *)
Definition truthy (m : option string) : bool :=
  match m with
  | None => false
  | Some s => negb (isEmpty s)
  end.

Definition TOAST_TITLE : string := "An error occurred. Please try again.".

(** [useEffect(() => { ... }, [stream.error])]: one run of the effect, for
    the error of a delivered snapshot (React runs it when the snapshot brings
    a new [stream.error]). The [toast.error] call is the one outward effect;
    the [try]/[catch] around it only swallows a failure of the toast itself,
    after the ref was written. *)
Definition errorEffect (err : option StreamError) (st : ThreadState)
  : ThreadState * list Effect :=
  match err with
  | None => (setLastError None st, [])
  | Some e =>
      let message := err_message e in
      if negb (truthy message) || bool_decide (lastError st = message)
      then (st, [])
      else (setLastError message st,
            [ToastError TOAST_TITLE (default "" message)])
  end.

(** Snapshots are processed in arrival order; the effects accumulate. *)
Fixpoint deliverErrors (errs : list (option StreamError)) (st : ThreadState)
  : ThreadState * list Effect :=
  match errs with
  | [] => (st, [])
  | e :: rest =>
      let '(st1, out1) := errorEffect e st in
      let '(st2, out2) := deliverErrors rest st1 in
      (st2, out1 ++ out2)
  end.

(** A stream error carrying the text [t]. *)
Definition errorText (t : string) : option StreamError :=
  Some (mkError (Some t)).

(* ===================================================================== *)
(** ** Thread switch *)
(* ===================================================================== *)

(** [setThreadId]: set the query state, close the artifact, reset its
    context. *)
Definition setThreadId (id : option string) (st : ThreadState) : ThreadState :=
  setArtifactContext ∅ (closeArtifact (_setThreadId id st)).

(* ===================================================================== *)
(** ** Tool-response reconciler *)
(* ===================================================================== *)

Definition calls_of (m : Message) : list ToolCall :=
  match m with
  | AIMessage _ _ calls => calls
  | _ => []
  end.

Definition answer_of (m : Message) : option string :=
  match m with
  | ToolMessage _ cid _ => Some cid
  | _ => None
  end.

(** Modelled from the spec: the fixed content of a synthesized tool result.
    [lib/ensure-tool-responses] is not among the sources and the design only
    says that the payload is a fixed, recognizable "skipped/interrupted"
    marker; nothing below depends on its text. *)
Definition SKIPPED_CONTENT : MessageContent :=
  ContentString "Tool call skipped or interrupted.".

(** Modelled from the spec: one step of the reconciler's single scan
    ([lib/ensure-tool-responses] is not among the sources). The calls of an
    [ai] message join the outstanding calls, in order and without
    de-duplication; a [tool] message removes its call id from them. *)
Definition scanStep (outstanding : list ToolCall) (m : Message) : list ToolCall :=
  match m with
  | AIMessage _ _ calls => outstanding ++ calls
  | ToolMessage _ cid _ => filter (λ tc, tc_id tc ≠ cid) outstanding
  | _ => outstanding
  end.

(** Modelled from the spec: the outstanding calls once the whole sequence is
    scanned ([lib/ensure-tool-responses] is not among the sources). *)
Definition outstandingCalls (msgs : list Message) : list ToolCall :=
  foldl scanStep [] msgs.

(** Modelled from the spec: the synthetic [tool] message answering [tc]; its
    id is freshly minted ([mint k] for the [k]-th message of this run). *)
Definition synthesize (mint : nat → string) (k : nat) (tc : ToolCall) : Message :=
  ToolMessage (mint k) (tc_id tc) SKIPPED_CONTENT.

(** Modelled from the spec: [ensureToolCallsHaveResponses] of
    [lib/ensure-tool-responses], which is not among the sources: every call
    still outstanding after the scan yields one synthetic result, in call
    order. *)
Definition ensureToolCallsHaveResponses (mint : nat → string) (msgs : list Message)
  : list Message :=
  imap (synthesize mint) (outstandingCalls msgs).

(** The design's wording of the same set, with no scan: the calls emitted by
    an [ai] message that no [tool] message later in the sequence answers, in
    emission order. *)
Definition answeredIn (rest : list Message) (cid : string) : Prop :=
  Some cid ∈ answer_of <$> rest.

#[global] Instance answeredIn_dec rest cid : Decision (answeredIn rest cid).
Proof. unfold answeredIn. apply _. Defined.

Fixpoint unanswered (msgs : list Message) : list ToolCall :=
  match msgs with
  | [] => []
  | m :: rest =>
      filter (λ tc, ¬ answeredIn rest (tc_id tc)) (calls_of m) ++ unanswered rest
  end.

(** How many [tool] messages of [ms] answer the call id [cid]. *)
Definition matching (cid : string) (ms : list Message) : nat :=
  length (filter (λ m, answer_of m = Some cid) ms).

(** How many of the calls [tcs] carry the call id [cid]. *)
Definition occurrences (cid : string) (tcs : list ToolCall) : nat :=
  length (filter (λ tc, tc_id tc = cid) tcs).

(* ===================================================================== *)
(** ** Submission handlers *)
(* ===================================================================== *)

Definition Object_keys (o : ArtifactContext) : list string :=
  (map_to_list o).*1.

(** [Object.keys(artifactContext).length > 0 ? artifactContext : undefined] *)
Definition contextOf (st : ThreadState) : option ArtifactContext :=
  if (0 <? length (Object_keys (artifactContext st)))%nat
  then Some (artifactContext st) else None.

(** [handleSubmit] of [index.tsx] (the welcome-screen variant has the same
    one). [newId] is the id [uuidv4()] returns for the human message, [mint]
    the ids it returns inside the reconciler. *)
Definition handleSubmit (newId : string) (mint : nat → string)
    (stream : Stream) (st : ThreadState) : ThreadState * list Effect :=
  if (String.length (trim (input st)) =? 0)%nat || isLoading stream then (st, [])
  else
    let newHumanMessage := HumanMessage newId (ContentString (trim (input st))) in
    let toolMessages := ensureToolCallsHaveResponses mint (messages stream) in
    let context := contextOf st in
    (setInput "" (setFirstTokenReceived false st),
     [Submit
        {| sub_messages := toolMessages ++ [newHumanMessage];
           sub_context := context;
           sub_options :=
             {| streamMode := ["values"];
                optimisticValues := λ prev,
                  {| sv_messages :=
                       Some (default [] (sv_messages prev)
                               ++ toolMessages ++ [newHumanMessage]);
                     sv_ui := sv_ui prev;
                     sv_context := context |} |} |}]).

(** [handleSubmit] of the upload variant: attachments count as input and the
    content is a list of blocks. *)
Definition handleSubmitUpload (newId : string) (mint : nat → string)
    (stream : Stream) (st : ThreadState) : ThreadState * list Effect :=
  if ((String.length (trim (input st)) =? 0)%nat && (length (contentBlocks st) =? 0)%nat)
     || isLoading stream
  then (st, [])
  else
    let newHumanMessage :=
      HumanMessage newId
        (ContentBlocks
           ((if (0 <? String.length (trim (input st)))%nat
             then [TextBlock (input st)] else [])
            ++ contentBlocks st)) in
    let toolMessages := ensureToolCallsHaveResponses mint (messages stream) in
    let context := contextOf st in
    (setContentBlocks [] (setInput "" (setFirstTokenReceived false st)),
     [Submit
        {| sub_messages := toolMessages ++ [newHumanMessage];
           sub_context := context;
           sub_options :=
             {| streamMode := ["values"];
                optimisticValues := λ prev,
                  {| sv_messages :=
                       Some (default [] (sv_messages prev)
                               ++ toolMessages ++ [newHumanMessage]);
                     sv_ui := sv_ui prev;
                     sv_context := context |} |} |}]).

Definition luckyPrompts : list string := [
  "Create a beautiful landing page for a coffee shop";
  "Design a dashboard for tracking fitness goals";
  "Build a portfolio website for a photographer";
  "Make a booking system for a restaurant";
  "Create a weather app with animations";
  "Design a task management tool";
  "Build a recipe sharing platform";
  "Create a music player interface";
  "Design a travel booking website";
  "Make a social media profile page";
  "Create a modern e-commerce product page";
  "Design a meditation and mindfulness app";
  "Build a real estate listing website";
  "Create a cryptocurrency trading dashboard";
  "Design a food delivery app interface";
  "Make a workout tracking application";
  "Create a news aggregator website";
  "Design a video streaming platform";
  "Build a job board and career portal";
  "Create a plant care and garden tracker"
].

(** [handleLuckyClick] of the welcome-screen variant. [randomIndex] is the
    value of [Math.floor(Math.random() * luckyPrompts.length)]; reading the
    array past its end yields [undefined]. *)
Definition handleLuckyClick (randomIndex : nat) (newId : string)
    (mint : nat → string) (stream : Stream) (st : ThreadState)
  : ThreadState * list Effect :=
  if isLoading stream then (st, [])
  else
    let randomPrompt := luckyPrompts !! randomIndex in
    let newHumanMessage :=
      HumanMessage newId
        (match randomPrompt with
         | Some p => ContentString p
         | None => ContentUndefined
         end) in
    let toolMessages := ensureToolCallsHaveResponses mint (messages stream) in
    let context := contextOf st in
    (setFirstTokenReceived false st,
     [Submit
        {| sub_messages := toolMessages ++ [newHumanMessage];
           sub_context := context;
           sub_options :=
             {| streamMode := ["values"];
                optimisticValues := λ prev,
                  {| sv_messages :=
                       Some (default [] (sv_messages prev)
                               ++ toolMessages ++ [newHumanMessage]);
                     sv_ui := sv_ui prev;
                     sv_context := context |} |} |}]).

(* ===================================================================== *)
(** ** First-token effect, full-screen selector, main view *)
(* ===================================================================== *)

(** [useEffect(() => { ... }, [messages])] with the [prevMessageLength] ref:
    one run of the effect, for a delivered message sequence. *)
Definition messagesEffect (msgs : list Message) (st : ThreadState) : ThreadState :=
  let st1 :=
    if negb (length msgs =? prevMessageLength st)%nat
       && negb (length msgs =? 0)%nat
       && match msgs !! (length msgs - 1) with
          | Some m => is_ai m
          | None => false
          end
    then setFirstTokenReceived true st
    else st in
  setPrevMessageLength (length msgs) st1.

Definition FULL_SCREEN_MARKER : string := "llm-ui".

(** [values.ui?.filter(ui => ui.name === "llm-ui") || []] *)
Definition customComponents (vals : StreamValues) : list UIMessage :=
  match sv_ui vals with
  | Some ui => filter (λ u, ui_name u = FULL_SCREEN_MARKER) ui
  | None => []
  end.

(** [FullScreenCustomComponents]: the payload it renders, [None] when it
    returns [null]. *)
Definition FullScreenCustomComponents (vals : StreamValues) : option UIMessage :=
  let cc := customComponents vals in
  if (length cc =? 0)%nat then None
  else cc !! (length cc - 1).

(** [stream.values?.ui?.some(ui => ui.name === "llm-ui") || false] *)
Definition hasCustomUI (stream : Stream) : bool :=
  match sv_ui (values stream) with
  | Some ui => existsb (λ u, bool_decide (ui_name u = FULL_SCREEN_MARKER)) ui
  | None => false
  end.

(** [!!threadId || !!messages.length] *)
Definition chatStarted (stream : Stream) (st : ThreadState) : bool :=
  truthy (threadId st) || negb (length (messages stream) =? 0)%nat.

Inductive ViewMode : Type :=
| FullScreen (payload : option UIMessage)
| Empty
| AwaitingFirstToken
| StreamingIdle.

(** The main content area, as the render chooses it. *)
Definition mainView (stream : Stream) (st : ThreadState) : ViewMode :=
  if hasCustomUI stream then FullScreen (FullScreenCustomComponents (values stream))
  else if negb (chatStarted stream st) then Empty
  else if isLoading stream && negb (firstTokenReceived st) then AwaitingFirstToken
  else StreamingIdle.

(** The most recent message of the sequence is an [ai] message. *)
Definition lastIsAi (msgs : list Message) : bool :=
  match last msgs with
  | Some m => is_ai m
  | None => false
  end.

(* ===================================================================== *)
(** ** Sample conversations for the worked examples *)
(* ===================================================================== *)

Definition sampleMint (k : nat) : string := "synthetic-" +:+ pretty k.

Definition H0 : Message := HumanMessage "h0" (ContentString "hi").
Definition AI0 : Message := AIMessage "a0" (ContentString "how can I help?") [].
Definition drawCall : ToolCall := mkToolCall "c1" "draw" "{}".
Definition H1 : Message := HumanMessage "h1" (ContentString "draw a cat").
Definition AI1 : Message := AIMessage "a1" (ContentString "") [drawCall].
Definition AI1twice : Message :=
  AIMessage "a1" (ContentString "") [drawCall; drawCall].

(** A stream context whose confirmed sequence is [msgs]. *)
Definition streamOf (msgs : list Message) (loading : bool) : Stream :=
  mkStream msgs loading None (mkValues (Some msgs) None None).

(** The component with [text] typed into the input box. *)
Definition typed (text : string) : ThreadState := setInput text initialState.

Definition payloadA : UIMessage := mkUI "ui-1" "llm-ui" "A".
Definition payloadB : UIMessage := mkUI "ui-2" "llm-ui" "B".
Definition payloadOther : UIMessage := mkUI "ui-3" "weather-card" "C".

(** A thread [H0; AI0] is on screen, the user sends "hello", the optimistic
    sequence [H0; AI0; H1] is rendered: the state the component is then
    in. *)
Definition awaitingReply : ThreadState :=
  messagesEffect [H0; AI0; HumanMessage "h1" (ContentString "hello")]
    (fst (handleSubmit "h1" sampleMint (streamOf [H0; AI0] false)
            (setInput "hello" (messagesEffect [H0; AI0] initialState)))).

(** The backend answers with a sequence of the same length whose first
    message was dropped. *)
Definition trimmedReply : list Message :=
  [AI0; HumanMessage "h1" (ContentString "hello");
   AIMessage "a1" (ContentString "hello to you") []].

(* ===================================================================== *)
(** ** What the render derives from the state *)
(* ===================================================================== *)

(** The send button of [index.tsx] and of the welcome-screen variant:
    [disabled={isLoading || !input.trim()}]; the empty string is the one
    falsy string. *)
Definition sendDisabled (stream : Stream) (st : ThreadState) : bool :=
  isLoading stream || isEmpty (trim (input st)).

(** The send button of the upload variant:
    [disabled={isLoading || (!input.trim() && contentBlocks.length === 0)}]. *)
Definition sendDisabledUpload (stream : Stream) (st : ThreadState) : bool :=
  isLoading stream
  || (isEmpty (trim (input st)) && (length (contentBlocks st) =? 0)%nat).

(** The welcome-screen variant renders the lucky button in the branch
    [hasCustomUI ? ... : !chatStarted ? ... : ...], under [isClient &&]. *)
Definition luckyButtonShown (isClient : bool) (stream : Stream) (st : ThreadState)
  : bool :=
  negb (hasCustomUI stream) && negb (chatStarted stream st) && isClient.

(** The texts of the error toasts among the effects, in order. *)
Definition toastTexts (out : list Effect) : list string :=
  omap (λ eff, match eff with
               | ToastError _ message => Some message
               | Submit _ => None
               end) out.

(** The message texts the delivered errors carry, in order. *)
Definition deliveredTexts (errs : list (option StreamError)) : list string :=
  omap (λ err, err ≫= err_message) errs.

(* ===================================================================== *)
(** * Properties *)
(* ===================================================================== *)

(** ** Trimming *)

Lemma length_zero_isEmpty (s : string) :
  (String.length s =? 0)%nat = isEmpty s.
Proof. destruct s; reflexivity. Qed.

Lemma trimStart_whitespaceOnly (s : string) :
  whitespaceOnly (trimStart s) = whitespaceOnly s.
Proof.
  induction s as [|c r IH]; simpl; [reflexivity|].
  destruct (isWhiteSpace c) eqn:Hc; simpl; rewrite ?Hc; auto.
Qed.

Lemma trimEnd_empty (s : string) :
  isEmpty (trimEnd s) = whitespaceOnly s.
Proof.
  induction s as [|c r IH]; simpl; [reflexivity|].
  rewrite <- IH.
  destruct (isWhiteSpace c), (isEmpty (trimEnd r)); reflexivity.
Qed.

(** The guard's test [input.trim().length === 0] decides "empty or
    whitespace-only". *)
Lemma trim_length_zero (s : string) :
  (String.length (trim s) =? 0)%nat = whitespaceOnly s.
Proof.
  unfold trim.
  by rewrite length_zero_isEmpty, trimEnd_empty, trimStart_whitespaceOnly.
Qed.

(** ** The scan computes the unanswered calls *)

Lemma not_answeredIn_nil (cid : string) : ¬ answeredIn [] cid.
Proof. unfold answeredIn. simpl. apply not_elem_of_nil. Qed.

Lemma answeredIn_cons (m : Message) (rest : list Message) (cid : string) :
  answeredIn (m :: rest) cid ↔ answer_of m = Some cid ∨ answeredIn rest cid.
Proof.
  unfold answeredIn. rewrite fmap_cons, elem_of_cons.
  split; (intros [H|H]; [left; congruence | right; exact H]).
Qed.

Lemma filter_all {A} (P : A → Prop) `{!∀ x, Decision (P x)} (l : list A) :
  (∀ x, P x) → filter P l = l.
Proof.
  intros HP. induction l as [|x l IH]; [reflexivity|].
  rewrite filter_cons_True by apply HP. by rewrite IH.
Qed.

Lemma scan_from (msgs : list Message) (acc : list ToolCall) :
  foldl scanStep acc msgs
  = filter (λ tc, ¬ answeredIn msgs (tc_id tc)) acc ++ unanswered msgs.
Proof.
  revert acc. induction msgs as [|m rest IH]; intros acc.
  - simpl. rewrite app_nil_r. symmetry. apply filter_all.
    intros tc. apply not_answeredIn_nil.
  - cbn [foldl unanswered]. rewrite IH.
    destruct m as [i c|i c calls|i cid c|i c]; cbn [scanStep calls_of].
    + rewrite filter_nil, app_nil_l. f_equal. apply list_filter_iff.
      intros tc. rewrite answeredIn_cons. simpl. intuition congruence.
    + rewrite filter_app, <- app_assoc. f_equal. apply list_filter_iff.
      intros tc. rewrite answeredIn_cons. simpl. intuition congruence.
    + rewrite filter_nil, app_nil_l, list_filter_filter. f_equal.
      apply list_filter_iff. intros tc. rewrite answeredIn_cons. simpl.
      intuition congruence.
    + rewrite filter_nil, app_nil_l. f_equal. apply list_filter_iff.
      intros tc. rewrite answeredIn_cons. simpl. intuition congruence.
Qed.

Lemma outstandingCalls_unanswered (msgs : list Message) :
  outstandingCalls msgs = unanswered msgs.
Proof. unfold outstandingCalls. by rewrite scan_from, filter_nil. Qed.

(** Membership in [unanswered], by positions: the call sits in an [ai]
    message and no [tool] message at a later position carries its id. *)
Lemma elem_of_unanswered (msgs : list Message) (tc : ToolCall) :
  tc ∈ unanswered msgs ↔
  ∃ i m, msgs !! i = Some m ∧ tc ∈ calls_of m ∧
         ∀ j m', i < j → msgs !! j = Some m' → answer_of m' ≠ Some (tc_id tc).
Proof.
  induction msgs as [|m rest IH]; simpl.
  - split; [intros H; by apply elem_of_nil in H | intros (i & m & H & _); done].
  - rewrite elem_of_app, list_elem_of_filter, IH. split.
    + intros [[Hna Hin] | (i & m0 & Hi & Hin & Hlater)].
      * exists 0, m. split; [done|]. split; [done|].
        intros j m' Hj Hm'. destruct j as [|j]; [lia|]. simpl in Hm'.
        intros Heq. apply Hna. unfold answeredIn.
        apply list_elem_of_fmap. exists m'. split; [done|].
        apply list_elem_of_lookup. eauto.
      * exists (S i), m0. split; [done|]. split; [done|].
        intros j m' Hj Hm'. destruct j as [|j]; [lia|]. simpl in Hm'.
        apply (Hlater j m'); [lia | done].
    + intros (i & m0 & Hi & Hin & Hlater). destruct i as [|i].
      * left. simpl in Hi. injection Hi as ->. split; [|done].
        intros Ha. unfold answeredIn in Ha.
        apply list_elem_of_fmap in Ha as (m' & Heq & Hm').
        apply list_elem_of_lookup in Hm' as (j & Hj).
        apply (Hlater (S j) m'); [lia | done | done].
      * right. exists i, m0. split; [done|]. split; [done|].
        intros j m' Hj Hm'. apply (Hlater (S j) m'); [lia | done].
Qed.

(** ** Counting the synthetic results *)

Lemma matching_synthesized (mint : nat → string) (cid : string) (tcs : list ToolCall) :
  matching cid (imap (synthesize mint) tcs) = occurrences cid tcs.
Proof.
  unfold matching, occurrences. revert mint.
  induction tcs as [|tc tcs IH]; intros mint; [reflexivity|].
  cbn [imap]. rewrite !filter_cons. cbn [synthesize answer_of].
  specialize (IH (mint ∘ S)).
  destruct (decide (Some (tc_id tc) = Some cid)) as [He|He];
    destruct (decide (tc_id tc = cid)) as [He'|He']; simpl;
    try congruence; by rewrite <- IH.
Qed.

Lemma occurrences_absent (cid : string) (tcs : list ToolCall) :
  cid ∉ tc_id <$> tcs → occurrences cid tcs = 0.
Proof.
  unfold occurrences. induction tcs as [|tc tcs IH]; [reflexivity|].
  rewrite fmap_cons, not_elem_of_cons. intros [Hne Hnot].
  rewrite filter_cons_False by congruence. by apply IH.
Qed.

Lemma occurrences_NoDup (tc : ToolCall) (tcs : list ToolCall) :
  NoDup (tc_id <$> tcs) → tc ∈ tcs → occurrences (tc_id tc) tcs = 1.
Proof.
  induction tcs as [|tc' tcs IH]; [intros _ H; by apply elem_of_nil in H|].
  rewrite fmap_cons, NoDup_cons, elem_of_cons. intros [Hnot Hnd] [->|Hin].
  - unfold occurrences. rewrite filter_cons_True by done. simpl.
    f_equal. by apply occurrences_absent.
  - unfold occurrences. rewrite filter_cons_False.
    + by apply IH.
    + intros Heq. apply Hnot. rewrite Heq.
      apply list_elem_of_fmap. by exists tc.
Qed.

(** ** The submission handler dispatches once the guard lets it through *)

Lemma handleSubmit_dispatches newId mint stream st :
  whitespaceOnly (input st) = false →
  isLoading stream = false →
  handleSubmit newId mint stream st =
  (setInput "" (setFirstTokenReceived false st),
   [Submit
      {| sub_messages :=
           ensureToolCallsHaveResponses mint (messages stream)
             ++ [HumanMessage newId (ContentString (trim (input st)))];
         sub_context := contextOf st;
         sub_options :=
           {| streamMode := ["values"];
              optimisticValues := λ prev,
                {| sv_messages :=
                     Some (default [] (sv_messages prev)
                             ++ ensureToolCallsHaveResponses mint (messages stream)
                             ++ [HumanMessage newId (ContentString (trim (input st)))]);
                   sv_ui := sv_ui prev;
                   sv_context := contextOf st |} |} |}]).
Proof.
  intros Hws Hload. unfold handleSubmit.
  by rewrite trim_length_zero, Hws, Hload.
Qed.

(** Rewrites a guarded-through [handleSubmit] into its dispatch. *)
Ltac dispatch_handleSubmit Hws Hload :=
  rewrite (handleSubmit_dispatches _ _ _ _ Hws Hload); cbn [fst snd].

Lemma matching_human_last (cid : string) (ms : list Message) i c :
  matching cid (ms ++ [HumanMessage i c]) = matching cid ms.
Proof.
  unfold matching. rewrite filter_app, length_app.
  rewrite filter_cons_False by (simpl; congruence). simpl. lia.
Qed.

(** ** C1: reconciliation at submission time *)

(** C1, as stated, fails when two unanswered calls share a call id: an [ai]
    message that emits the call [c1] twice leaves both occurrences
    outstanding, the increment carries two synthetic results for [c1], and
    the call has two matching results before the human message, not one. *)
Lemma reconciler_duplicate_ids_counterexample :
  drawCall ∈ unanswered [H1; AI1twice] ∧
  snd (handleSubmit "h2" sampleMint (streamOf [H1; AI1twice] false) (typed "thanks"))
  = [Submit
       {| sub_messages :=
            [ToolMessage "synthetic-0" "c1" SKIPPED_CONTENT;
             ToolMessage "synthetic-1" "c1" SKIPPED_CONTENT;
             HumanMessage "h2" (ContentString "thanks")];
          sub_context := None;
          sub_options :=
            {| streamMode := ["values"];
               optimisticValues := λ prev,
                 {| sv_messages :=
                      Some (default [] (sv_messages prev)
                              ++ [ToolMessage "synthetic-0" "c1" SKIPPED_CONTENT;
                                  ToolMessage "synthetic-1" "c1" SKIPPED_CONTENT]
                              ++ [HumanMessage "h2" (ContentString "thanks")]);
                    sv_ui := sv_ui prev;
                    sv_context := None |} |} |}] ∧
  matching (tc_id drawCall)
    [ToolMessage "synthetic-0" "c1" SKIPPED_CONTENT;
     ToolMessage "synthetic-1" "c1" SKIPPED_CONTENT;
     HumanMessage "h2" (ContentString "thanks")] = 2.
Proof.
  split; [|split].
  - vm_compute. apply list_elem_of_here.
  - reflexivity.
  - reflexivity.
Qed.

(** C1 (amended): for every confirmed sequence, a submission that passes the
    guard dispatches the increment [toolMessages ++ [human]], where
    [toolMessages] holds exactly one synthetic result per occurrence of a
    call emitted by an [ai] message and not answered by any later [tool]
    message, in emission order, all before the new human message. For every
    call id, the results of the increment matching it are as many as the
    unanswered occurrences of that id; so each unanswered call has exactly
    one matching result whenever the unanswered call ids are pairwise
    distinct. *)
Theorem reconciler_answers_unanswered_calls newId mint stream st :
  whitespaceOnly (input st) = false →
  isLoading stream = false →
  ∃ sub newHumanMessage,
    snd (handleSubmit newId mint stream st) = [Submit sub] ∧
    ensureToolCallsHaveResponses mint (messages stream)
      = imap (synthesize mint) (unanswered (messages stream)) ∧
    msg_type newHumanMessage = human ∧
    sub_messages sub
      = ensureToolCallsHaveResponses mint (messages stream) ++ [newHumanMessage] ∧
    (∀ cid, matching cid (sub_messages sub)
            = occurrences cid (unanswered (messages stream))) ∧
    (NoDup (tc_id <$> unanswered (messages stream)) →
     ∀ tc, tc ∈ unanswered (messages stream) →
           matching (tc_id tc) (sub_messages sub) = 1).
Proof.
  intros Hws Hload.
  dispatch_handleSubmit Hws Hload.
  eexists _, (HumanMessage newId (ContentString (trim (input st)))).
  split; [reflexivity|]. cbn [sub_messages].
  assert (Hrec : ensureToolCallsHaveResponses mint (messages stream)
                 = imap (synthesize mint) (unanswered (messages stream))).
  { unfold ensureToolCallsHaveResponses. by rewrite outstandingCalls_unanswered. }
  assert (Hcount : ∀ cid,
             matching cid (ensureToolCallsHaveResponses mint (messages stream)
                             ++ [HumanMessage newId (ContentString (trim (input st)))])
             = occurrences cid (unanswered (messages stream))).
  { intros cid. by rewrite matching_human_last, Hrec, matching_synthesized. }
  repeat split; try done.
  intros Hnd tc Htc. rewrite Hcount. by apply occurrences_NoDup.
Qed.

(** The end-to-end scenario: the agent has asked for [c1], the user sends
    "thanks" with no tool result in between. *)
Lemma reconciler_answers_unanswered_calls_witness :
  whitespaceOnly (input (typed "thanks")) = false ∧
  isLoading (streamOf [H1; AI1] false) = false ∧
  ∃ sub newHumanMessage,
    snd (handleSubmit "h2" sampleMint (streamOf [H1; AI1] false) (typed "thanks"))
      = [Submit sub] ∧
    ensureToolCallsHaveResponses sampleMint (messages (streamOf [H1; AI1] false))
      = imap (synthesize sampleMint) (unanswered (messages (streamOf [H1; AI1] false))) ∧
    msg_type newHumanMessage = human ∧
    sub_messages sub
      = ensureToolCallsHaveResponses sampleMint (messages (streamOf [H1; AI1] false))
          ++ [newHumanMessage] ∧
    (∀ cid, matching cid (sub_messages sub)
            = occurrences cid (unanswered (messages (streamOf [H1; AI1] false)))) ∧
    (NoDup (tc_id <$> unanswered (messages (streamOf [H1; AI1] false))) →
     ∀ tc, tc ∈ unanswered (messages (streamOf [H1; AI1] false)) →
           matching (tc_id tc) (sub_messages sub) = 1).
Proof.
  split; [reflexivity|]. split; [reflexivity|].
  apply (reconciler_answers_unanswered_calls "h2" sampleMint
           (streamOf [H1; AI1] false) (typed "thanks")); reflexivity.
Defined.

(** ** C2: the optimistic projection *)

(** C2: for every previous snapshot [prev], the projection handed to the
    channel yields [prev.messages] (an absent field reads as the empty
    sequence) followed by the dispatched increment, that is by the synthetic
    tool results and then the new human message; every message of
    [prev.messages] is found unchanged at its position in the projected
    sequence. *)
Theorem optimistic_projection_appends newId mint stream st :
  whitespaceOnly (input st) = false →
  isLoading stream = false →
  ∃ sub,
    snd (handleSubmit newId mint stream st) = [Submit sub] ∧
    sub_messages sub
      = ensureToolCallsHaveResponses mint (messages stream)
          ++ [HumanMessage newId (ContentString (trim (input st)))] ∧
    ∀ prev : StreamValues,
      ∃ projected,
        sv_messages (optimisticValues (sub_options sub) prev) = Some projected ∧
        projected = default [] (sv_messages prev) ++ sub_messages sub ∧
        ∀ (i : nat) (m : Message),
          default [] (sv_messages prev) !! i = Some m → projected !! i = Some m.
Proof.
  intros Hws Hload.
  dispatch_handleSubmit Hws Hload.
  eexists. split; [reflexivity|]. cbn [sub_messages sub_options optimisticValues].
  split; [reflexivity|]. intros prev. eexists. cbn [sv_messages].
  split; [reflexivity|]. split; [reflexivity|].
  intros i m Hi. by apply lookup_app_l_Some.
Qed.

(** Submitting "hello" on the confirmed sequence [H0; AI0]: the projection
    of the snapshot holding [H0; AI0] is [H0; AI0; H1] with "hello" as the
    content of [H1]. *)
Lemma optimistic_projection_appends_witness :
  whitespaceOnly (input (typed "hello")) = false ∧
  isLoading (streamOf [H0; AI0] false) = false ∧
  ∃ sub,
    snd (handleSubmit "h1" sampleMint (streamOf [H0; AI0] false) (typed "hello"))
      = [Submit sub] ∧
    sv_messages (optimisticValues (sub_options sub)
                   (values (streamOf [H0; AI0] false)))
      = Some [H0; AI0; HumanMessage "h1" (ContentString "hello")].
Proof.
  split; [reflexivity|]. split; [reflexivity|].
  destruct (optimistic_projection_appends "h1" sampleMint
              (streamOf [H0; AI0] false) (typed "hello") eq_refl eq_refl)
    as (sub & Hsub & Hinc & Hproj).
  exists sub. split; [exact Hsub|].
  destruct (Hproj (values (streamOf [H0; AI0] false)))
    as (projected & Hp & Heq & _).
  rewrite Hp, Heq, Hinc. reflexivity.
Defined.

(** ** C3: the error cell across a thread switch *)

(** C3, as stated, fails: [setThreadId] never touches the [lastError] ref.
    After "E1" was surfaced, starting a new thread keeps the cell at "E1",
    and an error "E1" in the new conversation raises no notification. *)
Lemma thread_switch_keeps_error_counterexample :
  lastError (fst (errorEffect (errorText "E1") initialState)) = Some "E1" ∧
  lastError (setThreadId None (fst (errorEffect (errorText "E1") initialState)))
    = Some "E1" ∧
  snd (errorEffect (errorText "E1")
         (setThreadId None (fst (errorEffect (errorText "E1") initialState))))
    = [].
Proof. repeat split; reflexivity. Qed.

(** C3 (amended): changing the active conversation sets the thread id,
    closes the artifact and empties the artifact context, and leaves the
    "last reported error text" cell as it was; whatever error the next
    snapshot carries, it is notified or suppressed exactly as it would have
    been without the switch, so an error repeating the last surfaced text is
    suppressed. The cell is cleared by a snapshot without error, after which
    that text is notified again. *)
Theorem thread_switch_keeps_error_cell (id : option string) (st : ThreadState) :
  lastError (setThreadId id st) = lastError st ∧
  threadId (setThreadId id st) = id ∧
  artifactContext (setThreadId id st) = ∅ ∧
  artifactOpen (setThreadId id st) = false ∧
  (∀ err, snd (errorEffect err (setThreadId id st)) = snd (errorEffect err st)) ∧
  (∀ t, lastError st = Some t →
        snd (errorEffect (errorText t) (setThreadId id st)) = []) ∧
  (∀ t, isEmpty t = false →
        snd (deliverErrors [None; errorText t] (setThreadId id st))
        = [ToastError TOAST_TITLE t]).
Proof.
  assert (Hsame : ∀ err, snd (errorEffect err (setThreadId id st))
                         = snd (errorEffect err st)).
  { intros [e|]; [|reflexivity]. unfold errorEffect.
    replace (lastError (setThreadId id st)) with (lastError st) by reflexivity.
    destruct (negb (truthy (err_message e))
              || bool_decide (lastError st = err_message e)); reflexivity. }
  repeat split; [exact Hsame | |].
  - intros t Ht. rewrite Hsame. unfold errorText, errorEffect.
    cbn [err_message]. rewrite Ht, bool_decide_eq_true_2 by reflexivity.
    by rewrite orb_true_r.
  - intros t Ht. cbn [deliverErrors errorEffect errorText err_message truthy].
    rewrite Ht. cbn [negb orb setLastError lastError].
    rewrite bool_decide_eq_false_2 by discriminate. reflexivity.
Qed.

(** "E1" was surfaced in the prior conversation; in the new one "E1" is
    silent, unless a snapshot without error came first. *)
Lemma thread_switch_keeps_error_cell_witness :
  lastError (fst (errorEffect (errorText "E1") initialState)) = Some "E1" ∧
  isEmpty "E1" = false ∧
  snd (errorEffect (errorText "E1")
         (setThreadId (Some "thread-2")
            (fst (errorEffect (errorText "E1") initialState)))) = [] ∧
  snd (deliverErrors [None; errorText "E1"]
         (setThreadId (Some "thread-2")
            (fst (errorEffect (errorText "E1") initialState))))
    = [ToastError TOAST_TITLE "E1"].
Proof.
  destruct (thread_switch_keeps_error_cell (Some "thread-2")
              (fst (errorEffect (errorText "E1") initialState)))
    as (_ & _ & _ & _ & _ & Hsilent & Hagain).
  split; [reflexivity|]. split; [reflexivity|]. split.
  - apply Hsilent. reflexivity.
  - apply Hagain. reflexivity.
Defined.

(** ** C4: de-duplication of consecutive errors *)

(** C4: the error texts "E1", "E1", "E2", "E1" delivered one per snapshot,
    with no error-free snapshot in between, to a controller that has not
    just reported "E1": the first three deliveries raise exactly two
    notifications, "E1" then "E2" (the second "E1" is suppressed), and the
    whole sequence raises three, the last "E1" firing again. *)
Theorem error_dedup_sequence (st : ThreadState) :
  lastError st ≠ Some "E1" →
  snd (deliverErrors [errorText "E1"; errorText "E1"; errorText "E2"] st)
    = [ToastError TOAST_TITLE "E1"; ToastError TOAST_TITLE "E2"] ∧
  snd (deliverErrors
         [errorText "E1"; errorText "E1"; errorText "E2"; errorText "E1"] st)
    = [ToastError TOAST_TITLE "E1"; ToastError TOAST_TITLE "E2";
       ToastError TOAST_TITLE "E1"] ∧
  lastError
    (fst (deliverErrors
            [errorText "E1"; errorText "E1"; errorText "E2"; errorText "E1"] st))
    = Some "E1".
Proof.
  intros Hne.
  assert (Hfirst : errorEffect (errorText "E1") st
                   = (setLastError (Some "E1") st, [ToastError TOAST_TITLE "E1"])).
  { unfold errorEffect, errorText. cbn [err_message truthy isEmpty negb orb].
    by rewrite bool_decide_eq_false_2. }
  cbn [deliverErrors]. rewrite Hfirst.
  repeat split; reflexivity.
Qed.

Lemma error_dedup_sequence_witness :
  lastError initialState ≠ Some "E1" ∧
  snd (deliverErrors [errorText "E1"; errorText "E1"; errorText "E2"] initialState)
    = [ToastError TOAST_TITLE "E1"; ToastError TOAST_TITLE "E2"] ∧
  snd (deliverErrors
         [errorText "E1"; errorText "E1"; errorText "E2"; errorText "E1"]
         initialState)
    = [ToastError TOAST_TITLE "E1"; ToastError TOAST_TITLE "E2";
       ToastError TOAST_TITLE "E1"] ∧
  lastError
    (fst (deliverErrors
            [errorText "E1"; errorText "E1"; errorText "E2"; errorText "E1"]
            initialState))
    = Some "E1".
Proof.
  assert (Hne : lastError initialState ≠ Some "E1") by (simpl; discriminate).
  split; [exact Hne|]. exact (error_dedup_sequence initialState Hne).
Defined.

(** ** C5: the guards of submit *)

(** C5: submit does nothing (the state is returned as it was and nothing
    is dispatched) whenever the text is empty or whitespace-only and there is
    no attachment, and whenever a submission is in flight; this holds for
    the handler of [index.tsx], which has no attachments, and for the upload
    variant. *)
Theorem submit_guards_are_noops newId mint stream st :
  (whitespaceOnly (input st) = true ∧ contentBlocks st = [])
  ∨ isLoading stream = true →
  handleSubmit newId mint stream st = (st, []) ∧
  handleSubmitUpload newId mint stream st = (st, []).
Proof.
  intros Hguard. unfold handleSubmit, handleSubmitUpload.
  rewrite trim_length_zero.
  destruct Hguard as [[Hws Hblocks] | Hload].
  - rewrite Hws, Hblocks. split; reflexivity.
  - rewrite Hload, !orb_true_r. split; reflexivity.
Qed.

(** [submit("", [], {})] while idle, and [submit("hi", [], {})] while a
    submission is in flight. *)
Lemma submit_guards_are_noops_witness :
  ((whitespaceOnly (input (typed "")) = true ∧ contentBlocks (typed "") = [])
   ∨ isLoading (streamOf [H0; AI0] false) = true) ∧
  ((whitespaceOnly (input (typed "hi")) = true ∧ contentBlocks (typed "hi") = [])
   ∨ isLoading (streamOf [H0] true) = true) ∧
  (handleSubmit "h1" sampleMint (streamOf [H0; AI0] false) (typed "")
     = (typed "", []) ∧
   handleSubmitUpload "h1" sampleMint (streamOf [H0; AI0] false) (typed "")
     = (typed "", [])) ∧
  (handleSubmit "h1" sampleMint (streamOf [H0] true) (typed "hi")
     = (typed "hi", []) ∧
   handleSubmitUpload "h1" sampleMint (streamOf [H0] true) (typed "hi")
     = (typed "hi", [])).
Proof.
  assert (Hempty : (whitespaceOnly (input (typed "")) = true
                    ∧ contentBlocks (typed "") = [])
                   ∨ isLoading (streamOf [H0; AI0] false) = true)
    by (left; split; reflexivity).
  assert (Hbusy : (whitespaceOnly (input (typed "hi")) = true
                   ∧ contentBlocks (typed "hi") = [])
                  ∨ isLoading (streamOf [H0] true) = true)
    by (right; reflexivity).
  split; [exact Hempty|]. split; [exact Hbusy|]. split.
  - exact (submit_guards_are_noops "h1" sampleMint _ _ Hempty).
  - exact (submit_guards_are_noops "h1" sampleMint _ _ Hbusy).
Defined.

(** ** C6: the full-screen selector *)

Lemma FullScreenCustomComponents_last (vals : StreamValues) :
  FullScreenCustomComponents vals = last (customComponents vals).
Proof.
  unfold FullScreenCustomComponents.
  destruct (customComponents vals) as [|u cc] eqn:Hcc; [reflexivity|].
  rewrite last_lookup. cbn [length Nat.eqb Nat.pred].
  by rewrite Nat.sub_1_r.
Qed.

(** C6: the selector is a function of the snapshot alone; it returns
    nothing exactly when no payload of the snapshot bears the marker name
    "llm-ui", and otherwise the marker-bearing payload after which, in
    arrival order, no other marker-bearing payload comes. *)
Theorem full_screen_selector_last_marker (vals : StreamValues) :
  match FullScreenCustomComponents vals with
  | None =>
      Forall (λ u, ui_name u ≠ FULL_SCREEN_MARKER) (default [] (sv_ui vals))
  | Some p =>
      ui_name p = FULL_SCREEN_MARKER ∧
      ∃ before after,
        default [] (sv_ui vals) = before ++ p :: after ∧
        Forall (λ u, ui_name u ≠ FULL_SCREEN_MARKER) after
  end.
Proof.
  rewrite FullScreenCustomComponents_last. unfold customComponents.
  destruct (sv_ui vals) as [ui|]; simpl; [|constructor].
  destruct (last (filter (λ u, ui_name u = FULL_SCREEN_MARKER) ui)) as [p|] eqn:Hlast.
  - split.
    + apply last_Some_elem_of, list_elem_of_filter in Hlast. tauto.
    + apply last_filter_Some in Hlast as (before & after & -> & Hafter). eauto.
  - apply last_None in Hlast. apply Forall_forall. intros u Hu Hname.
    by apply (filter_nil_not_elem_of _ _ u Hlast).
Qed.

(** Two marker payloads [A] then [B] (with an unrelated one in between):
    [B] is selected; no marker payload, or no payload list at all: nothing
    is. *)
Lemma full_screen_selector_last_marker_witness :
  FullScreenCustomComponents
    (mkValues None (Some [payloadA; payloadOther; payloadB]) None) = Some payloadB ∧
  FullScreenCustomComponents (mkValues None (Some [payloadOther]) None) = None ∧
  FullScreenCustomComponents (mkValues None None None) = None ∧
  (ui_name payloadB = FULL_SCREEN_MARKER ∧
   ∃ before after,
     [payloadA; payloadOther; payloadB] = before ++ payloadB :: after ∧
     Forall (λ u, ui_name u ≠ FULL_SCREEN_MARKER) after).
Proof.
  split; [reflexivity|]. split; [reflexivity|]. split; [reflexivity|].
  exact (full_screen_selector_last_marker
           (mkValues None (Some [payloadA; payloadOther; payloadB]) None)).
Defined.

(** ** C7: the artifact context of a submission *)

Lemma contextOf_nonempty (st : ThreadState) :
  contextOf st
  = if decide (artifactContext st = ∅) then None else Some (artifactContext st).
Proof.
  unfold contextOf, Object_keys. rewrite length_fmap.
  destruct (decide (artifactContext st = ∅)) as [He|Hne].
  - rewrite He, map_to_list_empty. reflexivity.
  - destruct (map_to_list (artifactContext st)) eqn:Hl; [|reflexivity].
    apply map_to_list_empty_iff in Hl. contradiction.
Qed.

(** C7, as stated, fails in its last part: with an empty side-channel
    mapping the projection does not keep the previous snapshot's context, it
    writes [context: undefined] over it. *)
Lemma empty_context_overwrites_counterexample :
  artifactContext (typed "hello") = ∅ ∧
  sv_context (mkValues (Some [H0; AI0]) None (Some {[ "panel" := "open" ]}))
    = Some {[ "panel" := "open" ]} ∧
  ∃ sub,
    snd (handleSubmit "h1" sampleMint (streamOf [H0; AI0] false) (typed "hello"))
      = [Submit sub] ∧
    sv_context
      (optimisticValues (sub_options sub)
         (mkValues (Some [H0; AI0]) None (Some {[ "panel" := "open" ]})))
      = None.
Proof.
  split; [reflexivity|]. split; [reflexivity|].
  eexists. split; reflexivity.
Qed.

(** C7 (amended): for every submit that passes the guard, the dispatched
    increment carries the artifact context if and only if the side-channel
    mapping has at least one key, and the optimistic projection sets the
    context field of every previous snapshot to that same value: the mapping
    when it is non-empty, and [undefined] when it is empty, whatever the
    previous snapshot's context was. *)
Theorem context_attached_iff_nonempty newId mint stream st :
  whitespaceOnly (input st) = false →
  isLoading stream = false →
  ∃ sub,
    snd (handleSubmit newId mint stream st) = [Submit sub] ∧
    sub_context sub
      = (if decide (artifactContext st = ∅) then None
         else Some (artifactContext st)) ∧
    ∀ prev : StreamValues,
      sv_context (optimisticValues (sub_options sub) prev) = sub_context sub.
Proof.
  intros Hws Hload.
  dispatch_handleSubmit Hws Hload.
  eexists. split; [reflexivity|].
  cbn [sub_context sub_options optimisticValues sv_context].
  split; [apply contextOf_nonempty | reflexivity].
Qed.

Lemma context_attached_iff_nonempty_witness :
  whitespaceOnly
    (input (setArtifactContext {[ "panel" := "open" ]} (typed "hello"))) = false ∧
  isLoading (streamOf [H0; AI0] false) = false ∧
  ∃ sub,
    snd (handleSubmit "h1" sampleMint (streamOf [H0; AI0] false)
           (setArtifactContext {[ "panel" := "open" ]} (typed "hello")))
      = [Submit sub] ∧
    sub_context sub = Some {[ "panel" := "open" ]} ∧
    sv_context (optimisticValues (sub_options sub) (mkValues None None None))
      = Some {[ "panel" := "open" ]}.
Proof.
  split; [reflexivity|]. split; [reflexivity|].
  destruct (context_attached_iff_nonempty "h1" sampleMint
              (streamOf [H0; AI0] false)
              (setArtifactContext {[ "panel" := "open" ]} (typed "hello"))
              eq_refl eq_refl)
    as (sub & Hsub & Hctx & Hproj).
  exists sub. split; [exact Hsub|].
  rewrite Hproj, Hctx. split; reflexivity.
Defined.

(** ** C8: the first-token flag *)

Lemma last_element_is_ai (msgs : list Message) :
  negb (length msgs =? 0)%nat
  && match msgs !! (length msgs - 1) with
     | Some m => is_ai m
     | None => false
     end
  = lastIsAi msgs.
Proof.
  unfold lastIsAi. rewrite last_lookup, <- Nat.sub_1_r.
  destruct msgs as [|m msgs]; [reflexivity|]. reflexivity.
Qed.

(** C8, as stated, fails: a snapshot whose last message is an [ai] message
    does not set the flag when its length equals the length recorded at the
    previous run of the effect. The user sends "hello" on [H0; AI0], the
    optimistic sequence of length 3 is rendered, and the reply is a sequence
    of length 3 again, ending in an [ai] message: the flag stays false and
    the view is still awaiting the first token. *)
Lemma first_token_same_length_counterexample :
  firstTokenReceived awaitingReply = false ∧
  prevMessageLength awaitingReply = 3 ∧
  lastIsAi trimmedReply = true ∧
  firstTokenReceived (messagesEffect trimmedReply awaitingReply) = false ∧
  mainView (streamOf trimmedReply true) (messagesEffect trimmedReply awaitingReply)
    = AwaitingFirstToken.
Proof. repeat split; reflexivity. Qed.

(** C8 (amended): a run of the message effect sets the first-token flag
    exactly when the delivered sequence's length differs from the length
    recorded at the previous run and its last element is an [ai] message;
    otherwise the flag keeps its value. It records the new length, and once
    the flag is set the view is not awaiting the first token. *)
Theorem first_token_flag_rule (msgs : list Message) (st : ThreadState) :
  firstTokenReceived (messagesEffect msgs st)
    = firstTokenReceived st
      || (negb (length msgs =? prevMessageLength st)%nat && lastIsAi msgs) ∧
  prevMessageLength (messagesEffect msgs st) = length msgs ∧
  ∀ stream,
    firstTokenReceived (messagesEffect msgs st) = true →
    mainView stream (messagesEffect msgs st) ≠ AwaitingFirstToken.
Proof.
  assert (Hflag : firstTokenReceived (messagesEffect msgs st)
                  = firstTokenReceived st
                    || (negb (length msgs =? prevMessageLength st)%nat
                        && lastIsAi msgs)).
  { unfold messagesEffect. rewrite <- andb_assoc, last_element_is_ai.
    destruct (negb (length msgs =? prevMessageLength st)%nat && lastIsAi msgs);
      cbn [setPrevMessageLength setFirstTokenReceived firstTokenReceived].
    - by rewrite orb_true_r.
    - by rewrite orb_false_r. }
  split; [exact Hflag|]. split.
  - unfold messagesEffect.
    by destruct (_ && _ && _).
  - intros stream Hset. unfold mainView. rewrite Hset, andb_false_r.
    destruct (hasCustomUI stream); [discriminate|].
    destruct (negb (chatStarted stream _)); discriminate.
Qed.

(** The reply [H0; AI0; H1; AI1] after the optimistic [H0; AI0; H1]: the
    length grows to 4, the last message is an [ai] message, the flag is
    set. *)
Lemma first_token_flag_rule_witness :
  firstTokenReceived
    (messagesEffect
       [H0; AI0; HumanMessage "h1" (ContentString "hello");
        AIMessage "a1" (ContentString "hello to you") []]
       awaitingReply) = true ∧
  mainView
    (streamOf [H0; AI0; HumanMessage "h1" (ContentString "hello");
               AIMessage "a1" (ContentString "hello to you") []] true)
    (messagesEffect
       [H0; AI0; HumanMessage "h1" (ContentString "hello");
        AIMessage "a1" (ContentString "hello to you") []]
       awaitingReply) ≠ AwaitingFirstToken.
Proof.
  destruct (first_token_flag_rule
              [H0; AI0; HumanMessage "h1" (ContentString "hello");
               AIMessage "a1" (ContentString "hello to you") []]
              awaitingReply) as (Hflag & _ & Hview).
  assert (Hset : firstTokenReceived
                   (messagesEffect
                      [H0; AI0; HumanMessage "h1" (ContentString "hello");
                       AIMessage "a1" (ContentString "hello to you") []]
                      awaitingReply) = true)
    by (rewrite Hflag; reflexivity).
  split; [exact Hset|]. apply Hview. exact Hset.
Defined.

(** ** C9: an error without a message text *)

(** C9: when the snapshot's error is present and its message text is
    absent or empty, the effect raises no notification and returns the state
    as it was, the "last reported error text" cell included; an error
    carrying the previously surfaced text that comes next is therefore still
    suppressed. *)
Theorem falsy_error_message_ignored (e : StreamError) (st : ThreadState) :
  truthy (err_message e) = false →
  errorEffect (Some e) st = (st, []) ∧
  ∀ t, lastError st = Some t →
       deliverErrors [Some e; errorText t] st = (st, []).
Proof.
  intros Hfalsy.
  assert (Hone : errorEffect (Some e) st = (st, [])).
  { unfold errorEffect. by rewrite Hfalsy. }
  split; [exact Hone|]. intros t Ht.
  cbn [deliverErrors]. rewrite Hone.
  unfold errorText, errorEffect. cbn [err_message].
  rewrite Ht, bool_decide_eq_true_2 by reflexivity.
  by rewrite orb_true_r.
Qed.

(** After "E1" was reported: an error object without [message], and one
    whose [message] is the empty string, change nothing, and "E1" coming
    next is not notified again. *)
Lemma falsy_error_message_ignored_witness :
  truthy (err_message (mkError None)) = false ∧
  truthy (err_message (mkError (Some ""))) = false ∧
  lastError (fst (errorEffect (errorText "E1") initialState)) = Some "E1" ∧
  deliverErrors [Some (mkError None); errorText "E1"]
    (fst (errorEffect (errorText "E1") initialState))
    = (fst (errorEffect (errorText "E1") initialState), []) ∧
  deliverErrors [Some (mkError (Some "")); errorText "E1"]
    (fst (errorEffect (errorText "E1") initialState))
    = (fst (errorEffect (errorText "E1") initialState), []).
Proof.
  split; [reflexivity|]. split; [reflexivity|]. split; [reflexivity|]. split.
  - exact (proj2 (falsy_error_message_ignored (mkError None)
                    (fst (errorEffect (errorText "E1") initialState)) eq_refl)
                 "E1" eq_refl).
  - exact (proj2 (falsy_error_message_ignored (mkError (Some ""))
                    (fst (errorEffect (errorText "E1") initialState)) eq_refl)
                 "E1" eq_refl).
Defined.

(** ** C10: the lucky-prompt button *)

(** C10: the lucky-prompt list has 20 elements. While a submission is in
    flight [handleLuckyClick] does nothing. Otherwise, for an index within
    the list, it dispatches the reconciled tool results followed by a new
    human message whose content is the prompt at that index, and the only
    state it changes is the first-token flag: the input buffer is as it was,
    whereas [handleSubmit] leaves it empty after a dispatch. *)
Theorem lucky_click_dispatches_prompt randomIndex newId mint stream st :
  randomIndex < length luckyPrompts →
  length luckyPrompts = 20 ∧
  (if isLoading stream
   then handleLuckyClick randomIndex newId mint stream st = (st, [])
   else
     ∃ prompt sub,
       luckyPrompts !! randomIndex = Some prompt ∧
       prompt ∈ luckyPrompts ∧
       handleLuckyClick randomIndex newId mint stream st
         = (setFirstTokenReceived false st, [Submit sub]) ∧
       sub_messages sub
         = ensureToolCallsHaveResponses mint (messages stream)
             ++ [HumanMessage newId (ContentString prompt)] ∧
       input (fst (handleLuckyClick randomIndex newId mint stream st)) = input st ∧
       (whitespaceOnly (input st) = false →
        input (fst (handleSubmit newId mint stream st)) = "")).
Proof.
  intros Hidx. split; [reflexivity|].
  destruct (isLoading stream) eqn:Hload.
  - unfold handleLuckyClick. by rewrite Hload.
  - destruct (lookup_lt_is_Some_2 luckyPrompts randomIndex Hidx) as [prompt Hp].
    exists prompt. eexists. split; [exact Hp|]. split.
    { apply list_elem_of_lookup. by exists randomIndex. }
    unfold handleLuckyClick. rewrite Hload, Hp. cbn [fst].
    split; [reflexivity|]. split; [reflexivity|]. split; [reflexivity|].
    intros Hws. by dispatch_handleSubmit Hws Hload.
Qed.

(** The draw 7 on an idle stream with "draft" typed in the input box, and
    any draw while loading. *)
Lemma lucky_click_dispatches_prompt_witness :
  7 < length luckyPrompts ∧
  length luckyPrompts = 20 ∧
  handleLuckyClick 7 "h1" sampleMint (streamOf [H0] true) (typed "draft")
    = (typed "draft", []) ∧
  ∃ prompt sub,
    luckyPrompts !! 7 = Some prompt ∧
    handleLuckyClick 7 "h1" sampleMint (streamOf [H0; AI0] false) (typed "draft")
      = (setFirstTokenReceived false (typed "draft"), [Submit sub]) ∧
    sub_messages sub = [HumanMessage "h1" (ContentString prompt)] ∧
    prompt = "Create a music player interface" ∧
    input (fst (handleLuckyClick 7 "h1" sampleMint (streamOf [H0; AI0] false)
                  (typed "draft"))) = "draft".
Proof.
  assert (Hidx : 7 < length luckyPrompts) by (simpl; lia).
  split; [exact Hidx|].
  destruct (lucky_click_dispatches_prompt 7 "h1" sampleMint
              (streamOf [H0] true) (typed "draft") Hidx) as [Hlen Hbusy].
  destruct (lucky_click_dispatches_prompt 7 "h1" sampleMint
              (streamOf [H0; AI0] false) (typed "draft") Hidx) as [_ Hidle].
  split; [exact Hlen|]. split; [exact Hbusy|].
  cbn [isLoading streamOf] in Hidle.
  destruct Hidle as (prompt & sub & Hp & _ & Hrun & Hmsgs & Hinput & _).
  exists prompt, sub. split; [exact Hp|]. split; [exact Hrun|].
  split; [exact Hmsgs|]. split; [|exact Hinput].
  cbn in Hp. by injection Hp.
Defined.

(* ===================================================================== *)
(** * Further properties of the controller *)
(* ===================================================================== *)

(** ** The send button and the guard agree *)

(** X1: in [index.tsx] the send button is disabled exactly when
    [handleSubmit] would do nothing: the handler returns the state untouched
    with no dispatch if and only if [isLoading || !input.trim()]. *)
Theorem send_disabled_iff_noop newId mint stream st :
  handleSubmit newId mint stream st = (st, []) ↔ sendDisabled stream st = true.
Proof.
  unfold handleSubmit, sendDisabled. rewrite length_zero_isEmpty.
  destruct (isEmpty (trim (input st))), (isLoading stream); simpl;
    split; (reflexivity || discriminate || (intros H; inversion H)).
Qed.

(** X2: the same agreement in the upload variant, where attachments count
    as input. *)
Theorem send_disabled_upload_iff_noop newId mint stream st :
  handleSubmitUpload newId mint stream st = (st, [])
  ↔ sendDisabledUpload stream st = true.
Proof.
  unfold handleSubmitUpload, sendDisabledUpload. rewrite !length_zero_isEmpty.
  destruct (isEmpty (trim (input st))), (length (contentBlocks st) =? 0)%nat,
    (isLoading stream); simpl;
    split; (reflexivity || discriminate || (intros H; inversion H)).
Qed.

(** ** What the human message carries *)









Lemma handleSubmitUpload_dispatches newId mint stream st :
  whitespaceOnly (input st) = false ∨ contentBlocks st ≠ [] →
  isLoading stream = false →
  handleSubmitUpload newId mint stream st =
  (setContentBlocks [] (setInput "" (setFirstTokenReceived false st)),
   [Submit
      {| sub_messages :=
           ensureToolCallsHaveResponses mint (messages stream)
             ++ [HumanMessage newId
                   (ContentBlocks
                      ((if whitespaceOnly (input st) then []
                        else [TextBlock (input st)]) ++ contentBlocks st))];
         sub_context := contextOf st;
         sub_options :=
           {| streamMode := ["values"];
              optimisticValues := λ prev,
                {| sv_messages :=
                     Some (default [] (sv_messages prev)
                             ++ ensureToolCallsHaveResponses mint (messages stream)
                             ++ [HumanMessage newId
                                   (ContentBlocks
                                      ((if whitespaceOnly (input st) then []
                                        else [TextBlock (input st)])
                                       ++ contentBlocks st))]);
                   sv_ui := sv_ui prev;
                   sv_context := contextOf st |} |} |}]).
Proof.
  intros Hin Hload. unfold handleSubmitUpload.
  assert (Hpos : (0 <? String.length (trim (input st)))%nat
                 = negb (whitespaceOnly (input st))).
  { rewrite <- trim_length_zero. by destruct (trim (input st)). }
  rewrite Hpos, trim_length_zero, Hload, orb_false_r.
  assert (Hguard : whitespaceOnly (input st)
                   && (length (contentBlocks st) =? 0)%nat = false).
  { destruct Hin as [-> | Hne]; [reflexivity|].
    destruct (contentBlocks st); [done|]. apply andb_false_r. }
  rewrite Hguard. by destruct (whitespaceOnly (input st)).
Qed.

(** X4: in the upload variant a submission that passes the guard sends a
    block list that is never empty: the attachments, preceded by one text
    block when the input is not blank, and that block holds the input as
    typed (not trimmed). The input and the pending attachments are both
    cleared. *)
Theorem upload_content_blocks newId mint stream st :
  whitespaceOnly (input st) = false ∨ contentBlocks st ≠ [] →
  isLoading stream = false →
  ∃ sub blocks,
    handleSubmitUpload newId mint stream st
      = (setContentBlocks [] (setInput "" (setFirstTokenReceived false st)),
         [Submit sub]) ∧
    last (sub_messages sub) = Some (HumanMessage newId (ContentBlocks blocks)) ∧
    blocks = (if whitespaceOnly (input st) then [] else [TextBlock (input st)])
               ++ contentBlocks st ∧
    blocks ≠ [] ∧
    input (fst (handleSubmitUpload newId mint stream st)) = "" ∧
    contentBlocks (fst (handleSubmitUpload newId mint stream st)) = [].
Proof.
  intros Hin Hload. rewrite (handleSubmitUpload_dispatches _ _ _ _ Hin Hload).
  eexists _, _. split; [reflexivity|]. cbn [sub_messages fst].
  rewrite last_snoc. split; [reflexivity|]. split; [reflexivity|].
  split; [|split; reflexivity].
  destruct Hin as [-> | Hne]; [discriminate|].
  destruct (whitespaceOnly (input st)); [exact Hne | discriminate].
Qed.

(** An image alone, and an image with a caption typed around spaces. *)
Lemma upload_content_blocks_witness :
  (whitespaceOnly (input (setContentBlocks [AttachmentBlock "image/png" "AAAA"]
                            (typed " "))) = false
   ∨ contentBlocks (setContentBlocks [AttachmentBlock "image/png" "AAAA"]
                      (typed " ")) ≠ []) ∧
  isLoading (streamOf [] false) = false ∧
  ∃ sub,
    snd (handleSubmitUpload "h1" sampleMint (streamOf [] false)
           (setContentBlocks [AttachmentBlock "image/png" "AAAA"] (typed " ")))
      = [Submit sub] ∧
    sub_messages sub
      = [HumanMessage "h1" (ContentBlocks [AttachmentBlock "image/png" "AAAA"])].
Proof.
  assert (Hin : whitespaceOnly
                  (input (setContentBlocks [AttachmentBlock "image/png" "AAAA"]
                            (typed " "))) = false
                ∨ contentBlocks
                    (setContentBlocks [AttachmentBlock "image/png" "AAAA"]
                       (typed " ")) ≠ [])
    by (right; simpl; discriminate).
  split; [exact Hin|]. split; [reflexivity|].
  destruct (upload_content_blocks "h1" sampleMint (streamOf [] false)
              (setContentBlocks [AttachmentBlock "image/png" "AAAA"] (typed " "))
              Hin eq_refl) as (sub & blocks & Hrun & _).
  exists sub. rewrite Hrun. split; [reflexivity|].
  injection Hrun as Hsub. rewrite <- Hsub. reflexivity.
Defined.

(** ** Submitting twice *)



(** ** The error effect, in general *)

Lemma deliverErrors_cons err errs st :
  deliverErrors (err :: errs) st
  = (fst (deliverErrors errs (fst (errorEffect err st))),
     snd (errorEffect err st) ++ snd (deliverErrors errs (fst (errorEffect err st)))).
Proof.
  cbn [deliverErrors]. destruct (errorEffect err st) as [st1 out1]. cbn [fst snd].
  by destruct (deliverErrors errs st1).
Qed.

(** The three ways a run of the effect on a present error can go. *)
Lemma errorEffect_cases (e : StreamError) (st : ThreadState) :
  errorEffect (Some e) st = (st, [])
  ∨ ∃ t, err_message e = Some t ∧ t ≠ "" ∧ lastError st ≠ Some t ∧
         errorEffect (Some e) st
         = (setLastError (Some t) st, [ToastError TOAST_TITLE t]).
Proof.
  unfold errorEffect. destruct (err_message e) as [t|]; [|by left].
  destruct (truthy (Some t)) eqn:Ht; [|by left]. cbn [negb orb].
  destruct (bool_decide (lastError st = Some t)) eqn:Hd; [by left|].
  right. exists t. apply bool_decide_eq_false in Hd.
  repeat split; [|exact Hd]. intros ->. discriminate.
Qed.

(** X6: running the error effect again on the same error changes nothing
    and raises nothing: a re-run never repeats a toast. *)
Theorem error_effect_rerun_silent (err : option StreamError) (st : ThreadState) :
  errorEffect err (fst (errorEffect err st)) = (fst (errorEffect err st), []).
Proof.
  destruct err as [e|]; [|reflexivity].
  destruct (errorEffect_cases e st) as [Hq | (t & Hm & Hne & Hcell & Hrun)].
  - rewrite Hq. exact Hq.
  - rewrite Hrun. cbn [fst]. unfold errorEffect. rewrite Hm.
    cbn [setLastError lastError]. rewrite bool_decide_eq_true_2 by reflexivity.
    by rewrite orb_true_r.
Qed.

Lemma toastTexts_cons err errs st :
  toastTexts (snd (deliverErrors (err :: errs) st))
  = toastTexts (snd (errorEffect err st))
      ++ toastTexts (snd (deliverErrors errs (fst (errorEffect err st)))).
Proof. rewrite deliverErrors_cons. cbn [snd]. apply omap_app. Qed.

(** X7: over any sequence of snapshots, the notifications carry non-empty
    texts and form a subsequence, in delivery order, of the message texts the
    delivered errors carried: nothing is notified that was not delivered,
    nothing out of order, nothing empty. *)
Theorem toasts_are_delivered_texts (errs : list (option StreamError))
    (st : ThreadState) :
  toastTexts (snd (deliverErrors errs st)) `sublist_of` deliveredTexts errs ∧
  Forall (λ t, t ≠ "") (toastTexts (snd (deliverErrors errs st))).
Proof.
  revert st. induction errs as [|err errs IH]; intros st.
  - split; [reflexivity | constructor].
  - rewrite toastTexts_cons.
    destruct (IH (fst (errorEffect err st))) as [IHsub IHne].
    destruct err as [e|].
    + destruct (errorEffect_cases e st) as [Hq | (t & Hm & Hne & Hcell & Hrun)].
      * rewrite Hq in *. cbn [fst snd] in *.
        change (toastTexts []) with (@nil string). rewrite app_nil_l.
        split; [|exact IHne]. unfold deliveredTexts. cbn [omap list_omap].
        fold (deliveredTexts errs).
        destruct (Some e ≫= err_message); [by apply sublist_cons | exact IHsub].
      * rewrite Hrun in *. cbn [fst snd] in *.
        change (toastTexts [ToastError TOAST_TITLE t]) with [t].
        split; [|by constructor]. unfold deliveredTexts. cbn [omap list_omap].
        fold (deliveredTexts errs).
        replace (Some e ≫= err_message) with (Some t) by (symmetry; exact Hm).
        by apply sublist_skip.
    + change (toastTexts (snd (errorEffect None st))) with (@nil string).
      rewrite app_nil_l. split; [exact IHsub | exact IHne].
Qed.

(** X8: as long as every snapshot carries an error (no error-free snapshot
    in between), no two consecutive notifications carry the same text, and
    the first one differs from the text last reported before. *)
Theorem consecutive_toasts_differ (errs : list (option StreamError))
    (st : ThreadState) :
  Forall is_Some errs →
  (∀ t, lastError st = Some t →
        head (toastTexts (snd (deliverErrors errs st))) ≠ Some t) ∧
  (∀ (i : nat) (t : string),
     toastTexts (snd (deliverErrors errs st)) !! i = Some t →
     toastTexts (snd (deliverErrors errs st)) !! S i ≠ Some t).
Proof.
  intros Hall. revert st.
  induction Hall as [|err errs [e ->] Hall IH]; intros st.
  - split; [intros t _; discriminate | intros i t H; destruct i; discriminate].
  - rewrite toastTexts_cons.
    destruct (errorEffect_cases e st) as [Hq | (t0 & Hm & Hne & Hcell & Hrun)].
    + rewrite Hq. cbn [fst snd].
      change (toastTexts []) with (@nil string). rewrite app_nil_l. apply IH.
    + rewrite Hrun. cbn [fst snd].
      change (toastTexts [ToastError TOAST_TITLE t0]) with [t0].
      destruct (IH (setLastError (Some t0) st)) as [IHhead IHadj].
      specialize (IHhead t0 eq_refl). split.
      * intros t Ht. cbn [app head]. congruence.
      * intros [|i] t Hi.
        -- cbn in Hi. injection Hi as <-. cbn [app].
           change (toastTexts (deliverErrors errs (setLastError (Some t0) st)).2
                     !! 0 ≠ Some t0).
           rewrite <- head_lookup. exact IHhead.
        -- exact (IHadj i t Hi).
Qed.

Lemma consecutive_toasts_differ_witness :
  Forall is_Some [errorText "E1"; errorText "E1"; errorText "E2";
                  errorText "E2"; errorText "E1"] ∧
  toastTexts
    (snd (deliverErrors [errorText "E1"; errorText "E1"; errorText "E2";
                         errorText "E2"; errorText "E1"]
            (fst (errorEffect (errorText "E0") initialState))))
    = ["E1"; "E2"; "E1"] ∧
  (∀ (i : nat) (t : string),
     toastTexts
       (snd (deliverErrors [errorText "E1"; errorText "E1"; errorText "E2";
                            errorText "E2"; errorText "E1"]
               (fst (errorEffect (errorText "E0") initialState)))) !! i = Some t →
     toastTexts
       (snd (deliverErrors [errorText "E1"; errorText "E1"; errorText "E2";
                            errorText "E2"; errorText "E1"]
               (fst (errorEffect (errorText "E0") initialState)))) !! S i
     ≠ Some t).
Proof.
  assert (Hall : Forall is_Some [errorText "E1"; errorText "E1"; errorText "E2";
                                 errorText "E2"; errorText "E1"])
    by (repeat constructor; eexists; reflexivity).
  split; [exact Hall|]. split; [reflexivity|].
  exact (proj2 (consecutive_toasts_differ _
                  (fst (errorEffect (errorText "E0") initialState)) Hall)).
Defined.

(** ** The message effect, in general *)

(** X9: running the message effect again on the same sequence changes
    nothing: the recorded length already equals the sequence's. *)
Theorem messages_effect_rerun (msgs : list Message) (st : ThreadState) :
  messagesEffect msgs (messagesEffect msgs st) = messagesEffect msgs st.
Proof.
  unfold messagesEffect at 1.
  assert (Hlen : prevMessageLength (messagesEffect msgs st) = length msgs).
  { unfold messagesEffect. by destruct (_ && _ && _). }
  rewrite Hlen, Nat.eqb_refl. cbn [negb andb].
  unfold messagesEffect. by destruct (_ && _ && _).
Qed.

Lemma lastIsAi_snoc (msgs : list Message) (m : Message) :
  lastIsAi (msgs ++ [m]) = is_ai m.
Proof. unfold lastIsAi. by rewrite last_snoc. Qed.

Lemma messagesEffect_flag (msgs : list Message) (st : ThreadState) :
  firstTokenReceived (messagesEffect msgs st)
  = firstTokenReceived st
    || (negb (length msgs =? prevMessageLength st)%nat && lastIsAi msgs).
Proof.
  unfold messagesEffect. rewrite <- andb_assoc, last_element_is_ai.
  destruct (negb (length msgs =? prevMessageLength st)%nat && lastIsAi msgs);
    cbn [setPrevMessageLength setFirstTokenReceived firstTokenReceived].
  - by rewrite orb_true_r.
  - by rewrite orb_false_r.
Qed.

Lemma messagesEffect_length (msgs : list Message) (st : ThreadState) :
  prevMessageLength (messagesEffect msgs st) = length msgs.
Proof. unfold messagesEffect. by destruct (_ && _ && _). Qed.

(** X10: the usual course of a turn. After a submit that passes the guard,
    once the optimistic sequence (the confirmed messages followed by the
    increment) is rendered, the first-token flag is still false and, while
    the stream is loading and no full-screen payload is present, the view is
    the "Generating..." indicator; as soon as a sequence with one more
    message, an [ai] message, is rendered, the flag is set. *)
Theorem spinner_until_first_ai_message newId mint stream st sub reply :
  whitespaceOnly (input st) = false →
  isLoading stream = false →
  snd (handleSubmit newId mint stream st) = [Submit sub] →
  is_ai reply = true →
  firstTokenReceived
    (messagesEffect (messages stream ++ sub_messages sub)
       (fst (handleSubmit newId mint stream st))) = false ∧
  (∀ vals,
     hasCustomUI (mkStream (messages stream ++ sub_messages sub) true None vals)
       = false →
     mainView (mkStream (messages stream ++ sub_messages sub) true None vals)
       (messagesEffect (messages stream ++ sub_messages sub)
          (fst (handleSubmit newId mint stream st))) = AwaitingFirstToken) ∧
  firstTokenReceived
    (messagesEffect (messages stream ++ sub_messages sub ++ [reply])
       (messagesEffect (messages stream ++ sub_messages sub)
          (fst (handleSubmit newId mint stream st)))) = true.
Proof.
  intros Hws Hload Hsub Hai. revert Hsub. dispatch_handleSubmit Hws Hload.
  intros [= <-]. cbn [sub_messages].
  set (inc := ensureToolCallsHaveResponses mint (messages stream)
                ++ [HumanMessage newId (ContentString (trim (input st)))]).
  set (st1 := setInput "" (setFirstTokenReceived false st)).
  assert (Hlast : lastIsAi (messages stream ++ inc) = false).
  { unfold inc. by rewrite !app_assoc, lastIsAi_snoc. }
  assert (Hflag : firstTokenReceived (messagesEffect (messages stream ++ inc) st1)
                  = false).
  { by rewrite messagesEffect_flag, Hlast, andb_false_r. }
  split; [exact Hflag|]. split.
  - intros vals Hno. unfold mainView. rewrite Hno, Hflag.
    unfold chatStarted. cbn [messages isLoading].
    assert (Hlen : (length (messages stream ++ inc) =? 0)%nat = false).
    { apply Nat.eqb_neq. unfold inc. rewrite !length_app. simpl. lia. }
    rewrite Hlen. cbn [negb]. by rewrite orb_true_r.
  - rewrite messagesEffect_flag, messagesEffect_length.
    rewrite !app_assoc, lastIsAi_snoc, Hai, andb_true_r.
    rewrite <- !app_assoc.
    assert (Hlen : (length (messages stream ++ inc ++ [reply])
                    =? length (messages stream ++ inc))%nat = false).
    { apply Nat.eqb_neq. rewrite !length_app. simpl. lia. }
    rewrite Hlen. by rewrite orb_true_r.
Qed.

Lemma spinner_until_first_ai_message_witness :
  whitespaceOnly (input (typed "hello")) = false ∧
  isLoading (streamOf [H0; AI0] false) = false ∧
  is_ai (AIMessage "a1" (ContentString "hello to you") []) = true ∧
  ∃ sub,
    snd (handleSubmit "h1" sampleMint (streamOf [H0; AI0] false) (typed "hello"))
      = [Submit sub] ∧
    mainView
      (mkStream (messages (streamOf [H0; AI0] false) ++ sub_messages sub) true
         None (mkValues None None None))
      (messagesEffect (messages (streamOf [H0; AI0] false) ++ sub_messages sub)
         (fst (handleSubmit "h1" sampleMint (streamOf [H0; AI0] false)
                 (typed "hello")))) = AwaitingFirstToken ∧
    firstTokenReceived
      (messagesEffect
         (messages (streamOf [H0; AI0] false) ++ sub_messages sub
            ++ [AIMessage "a1" (ContentString "hello to you") []])
         (messagesEffect (messages (streamOf [H0; AI0] false) ++ sub_messages sub)
            (fst (handleSubmit "h1" sampleMint (streamOf [H0; AI0] false)
                    (typed "hello"))))) = true.
Proof.
  split; [reflexivity|]. split; [reflexivity|]. split; [reflexivity|].
  eexists. split; [reflexivity|].
  destruct (spinner_until_first_ai_message "h1" sampleMint
              (streamOf [H0; AI0] false) (typed "hello") _
              (AIMessage "a1" (ContentString "hello to you") [])
              eq_refl eq_refl eq_refl eq_refl) as (_ & Hview & Hset).
  split; [|exact Hset]. apply Hview. reflexivity.
Defined.

(** ** The full-screen selector, in general *)

(** X11: most recent wins. When one more payload arrives, it is selected if
    it bears the marker name; otherwise the selection is what it was. *)
Theorem selector_after_new_payload msgs ui ctx (p : UIMessage) :
  FullScreenCustomComponents (mkValues msgs (Some (ui ++ [p])) ctx)
  = if decide (ui_name p = FULL_SCREEN_MARKER) then Some p
    else FullScreenCustomComponents (mkValues msgs (Some ui) ctx).
Proof.
  rewrite !FullScreenCustomComponents_last. unfold customComponents.
  cbn [sv_ui]. rewrite filter_app, filter_cons, filter_nil.
  destruct (decide (ui_name p = FULL_SCREEN_MARKER)).
  - apply last_snoc.
  - by rewrite app_nil_r.
Qed.

Lemma existsb_filter_nonempty (ui : list UIMessage) :
  existsb (λ u, bool_decide (ui_name u = FULL_SCREEN_MARKER)) ui = true
  ↔ filter (λ u, ui_name u = FULL_SCREEN_MARKER) ui ≠ [].
Proof.
  induction ui as [|u ui IH]; simpl.
  - rewrite filter_nil. split; [discriminate | intros H; by destruct H].
  - rewrite filter_cons. destruct (decide (ui_name u = FULL_SCREEN_MARKER)) as [He|He].
    + rewrite bool_decide_eq_true_2 by exact He. simpl. split; [discriminate|done].
    + rewrite bool_decide_eq_false_2 by exact He. simpl. exact IH.
Qed.

(** X12: the render's test [hasCustomUI] and the selector agree: the test
    holds exactly when the selector returns a payload, so the full-screen
    branch of the render never shows nothing, and the other branches are
    chosen exactly when the selector returns [null]. *)
Theorem hasCustomUI_iff_selected (stream : Stream) (st : ThreadState) :
  (hasCustomUI stream = true
   ↔ is_Some (FullScreenCustomComponents (values stream))) ∧
  mainView stream st ≠ FullScreen None.
Proof.
  assert (Hiff : hasCustomUI stream = true
                 ↔ is_Some (FullScreenCustomComponents (values stream))).
  { rewrite FullScreenCustomComponents_last, last_is_Some.
    unfold hasCustomUI, customComponents.
    destruct (sv_ui (values stream)) as [ui|].
    - apply existsb_filter_nonempty.
    - split; [discriminate | intros H; by destruct H]. }
  split; [exact Hiff|]. unfold mainView.
  destruct (hasCustomUI stream) eqn:Hc.
  - destruct (proj1 Hiff eq_refl) as [p ->]. discriminate.
  - destruct (negb (chatStarted stream st)); [discriminate|].
    destruct (isLoading stream && negb (firstTokenReceived st)); discriminate.
Qed.

(** ** The optimistic projection of the other handlers *)

(** X13: whichever handler dispatched it, the optimistic projection leaves
    the UI payloads of the previous snapshot as they are, so the full-screen
    selection on the projected snapshot is the one on the previous
    snapshot. *)
Theorem projection_keeps_full_screen randomIndex newId mint stream st sub :
  Submit sub ∈ snd (handleSubmit newId mint stream st)
               ++ snd (handleSubmitUpload newId mint stream st)
               ++ snd (handleLuckyClick randomIndex newId mint stream st) →
  ∀ prev : StreamValues,
    sv_ui (optimisticValues (sub_options sub) prev) = sv_ui prev ∧
    FullScreenCustomComponents (optimisticValues (sub_options sub) prev)
      = FullScreenCustomComponents prev.
Proof.
  intros Hin prev.
  assert (Hui : sv_ui (optimisticValues (sub_options sub) prev) = sv_ui prev).
  { rewrite !elem_of_app in Hin. destruct Hin as [Hin | [Hin | Hin]];
      revert Hin;
      unfold handleSubmit, handleSubmitUpload, handleLuckyClick;
      match goal with
      | |- context [if ?b then (st, []) else _] => destruct b
      end; cbn [snd]; intros Hin;
      try (by apply elem_of_nil in Hin);
      apply list_elem_of_singleton in Hin; injection Hin as ->; reflexivity. }
  split; [exact Hui|].
  unfold FullScreenCustomComponents, customComponents. by rewrite Hui.
Qed.

Lemma projection_keeps_full_screen_witness :
  ∃ sub,
    Submit sub ∈ snd (handleSubmit "h1" sampleMint (streamOf [H0; AI0] false)
                        (typed "hello"))
                 ++ snd (handleSubmitUpload "h1" sampleMint
                           (streamOf [H0; AI0] false) (typed "hello"))
                 ++ snd (handleLuckyClick 3 "h1" sampleMint
                           (streamOf [H0; AI0] false) (typed "hello")) ∧
    FullScreenCustomComponents
      (optimisticValues (sub_options sub)
         (mkValues (Some [H0; AI0]) (Some [payloadA; payloadB]) None))
      = Some payloadB.
Proof.
  eexists. split.
  - apply elem_of_app. left. cbn. apply list_elem_of_here.
  - rewrite (proj2 (projection_keeps_full_screen 3 "h1" sampleMint
                      (streamOf [H0; AI0] false) (typed "hello") _
                      ltac:(apply elem_of_app; left; cbn; apply list_elem_of_here)
                      (mkValues (Some [H0; AI0]) (Some [payloadA; payloadB]) None))).
    reflexivity.
Defined.

(** X14: the upload variant's submit follows the same rules as the one of
    [index.tsx]: it asks for the "values" stream mode, its projection turns
    any previous snapshot's messages (none, if the field is missing) into
    those messages followed by the dispatched increment, keeping every
    earlier message in place, and increment and projection both carry the
    artifact context when that mapping has a key and [undefined] when it has
    none. *)
Theorem upload_projection_appends newId mint stream st :
  whitespaceOnly (input st) = false ∨ contentBlocks st ≠ [] →
  isLoading stream = false →
  ∃ sub,
    snd (handleSubmitUpload newId mint stream st) = [Submit sub] ∧
    streamMode (sub_options sub) = ["values"] ∧
    sub_context sub
      = (if decide (artifactContext st = ∅) then None
         else Some (artifactContext st)) ∧
    ∀ prev : StreamValues,
      sv_messages (optimisticValues (sub_options sub) prev)
        = Some (default [] (sv_messages prev) ++ sub_messages sub) ∧
      sv_context (optimisticValues (sub_options sub) prev) = sub_context sub ∧
      ∀ (i : nat) (m : Message),
        default [] (sv_messages prev) !! i = Some m →
        (default [] (sv_messages prev) ++ sub_messages sub) !! i = Some m.
Proof.
  intros Hin Hload. rewrite (handleSubmitUpload_dispatches _ _ _ _ Hin Hload).
  eexists. split; [reflexivity|].
  cbn [sub_options sub_context sub_messages streamMode optimisticValues].
  split; [reflexivity|]. split; [apply contextOf_nonempty|].
  intros prev. cbn [sv_messages sv_context]. split; [reflexivity|].
  split; [reflexivity|]. intros i m Hi. by apply lookup_app_l_Some.
Qed.

Lemma upload_projection_appends_witness :
  (whitespaceOnly (input (setContentBlocks [AttachmentBlock "image/png" "AAAA"]
                            (typed ""))) = false
   ∨ contentBlocks (setContentBlocks [AttachmentBlock "image/png" "AAAA"]
                      (typed "")) ≠ []) ∧
  isLoading (streamOf [H0; AI0] false) = false ∧
  ∃ sub,
    snd (handleSubmitUpload "h1" sampleMint (streamOf [H0; AI0] false)
           (setContentBlocks [AttachmentBlock "image/png" "AAAA"] (typed "")))
      = [Submit sub] ∧
    sv_messages (optimisticValues (sub_options sub)
                   (values (streamOf [H0; AI0] false)))
      = Some ([H0; AI0] ++ sub_messages sub) ∧
    sub_context sub = None.
Proof.
  assert (Hin : whitespaceOnly
                  (input (setContentBlocks [AttachmentBlock "image/png" "AAAA"]
                            (typed ""))) = false
                ∨ contentBlocks
                    (setContentBlocks [AttachmentBlock "image/png" "AAAA"]
                       (typed "")) ≠ [])
    by (right; simpl; discriminate).
  split; [exact Hin|]. split; [reflexivity|].
  destruct (upload_projection_appends "h1" sampleMint (streamOf [H0; AI0] false)
              (setContentBlocks [AttachmentBlock "image/png" "AAAA"] (typed ""))
              Hin eq_refl) as (sub & Hsub & _ & Hctx & Hproj).
  exists sub. split; [exact Hsub|]. split.
  - exact (proj1 (Hproj (values (streamOf [H0; AI0] false)))).
  - rewrite Hctx. reflexivity.
Defined.

(** X15: so does the lucky-prompt submit, for every draw, in range or not:
    "values" stream mode, a projection that appends the dispatched increment
    to the previous messages and keeps the earlier ones in place, and the
    artifact context on both exactly when the mapping has a key. *)
Theorem lucky_projection_appends randomIndex newId mint stream st :
  isLoading stream = false →
  ∃ sub,
    snd (handleLuckyClick randomIndex newId mint stream st) = [Submit sub] ∧
    streamMode (sub_options sub) = ["values"] ∧
    sub_context sub
      = (if decide (artifactContext st = ∅) then None
         else Some (artifactContext st)) ∧
    ∀ prev : StreamValues,
      sv_messages (optimisticValues (sub_options sub) prev)
        = Some (default [] (sv_messages prev) ++ sub_messages sub) ∧
      sv_context (optimisticValues (sub_options sub) prev) = sub_context sub ∧
      ∀ (i : nat) (m : Message),
        default [] (sv_messages prev) !! i = Some m →
        (default [] (sv_messages prev) ++ sub_messages sub) !! i = Some m.
Proof.
  intros Hload. unfold handleLuckyClick. rewrite Hload.
  eexists. split; [reflexivity|].
  cbn [sub_options sub_context sub_messages streamMode optimisticValues].
  split; [reflexivity|]. split; [apply contextOf_nonempty|].
  intros prev. cbn [sv_messages sv_context]. split; [reflexivity|].
  split; [reflexivity|]. intros i m Hi. by apply lookup_app_l_Some.
Qed.

Lemma lucky_projection_appends_witness :
  isLoading (streamOf [] false) = false ∧
  ∃ sub,
    snd (handleLuckyClick 0 "h1" sampleMint (streamOf [] false)
           (setArtifactContext {[ "panel" := "open" ]} initialState))
      = [Submit sub] ∧
    sv_messages (optimisticValues (sub_options sub) (mkValues None None None))
      = Some (sub_messages sub) ∧
    sub_context sub = Some {[ "panel" := "open" ]}.
Proof.
  split; [reflexivity|].
  destruct (lucky_projection_appends 0 "h1" sampleMint (streamOf [] false)
              (setArtifactContext {[ "panel" := "open" ]} initialState) eq_refl)
    as (sub & Hsub & _ & Hctx & Hproj).
  exists sub. split; [exact Hsub|]. split.
  - exact (proj1 (Hproj (mkValues None None None))).
  - rewrite Hctx. reflexivity.
Defined.

(** ** After a thread switch *)

(** X16: a thread switch keeps the draft and drops the artifact context.
    The first submit after [setThreadId] sends the text that was in the input
    box before the switch, and neither the increment nor the projection
    carries a context, whatever the artifact had contributed before. *)
Theorem submit_after_thread_switch id newId mint stream st :
  whitespaceOnly (input st) = false →
  isLoading stream = false →
  ∃ sub,
    snd (handleSubmit newId mint stream (setThreadId id st)) = [Submit sub] ∧
    last (sub_messages sub)
      = Some (HumanMessage newId (ContentString (trim (input st)))) ∧
    sub_context sub = None ∧
    ∀ prev : StreamValues,
      sv_context (optimisticValues (sub_options sub) prev) = None.
Proof.
  intros Hws Hload.
  assert (Hws' : whitespaceOnly (input (setThreadId id st)) = false) by exact Hws.
  dispatch_handleSubmit Hws' Hload.
  eexists. split; [reflexivity|]. cbn [sub_messages sub_context sub_options
                                        optimisticValues sv_context].
  rewrite last_snoc. split; [reflexivity|].
  assert (Hctx : contextOf (setThreadId id st) = None).
  { rewrite contextOf_nonempty. cbn [setThreadId setArtifactContext artifactContext].
    by rewrite decide_True. }
  split; [exact Hctx | intros prev; exact Hctx].
Qed.

Lemma submit_after_thread_switch_witness :
  whitespaceOnly
    (input (setArtifactContext {[ "panel" := "open" ]} (typed " draft "))) = false ∧
  isLoading (streamOf [] false) = false ∧
  ∃ sub,
    snd (handleSubmit "h1" sampleMint (streamOf [] false)
           (setThreadId None
              (setArtifactContext {[ "panel" := "open" ]} (typed " draft "))))
      = [Submit sub] ∧
    last (sub_messages sub) = Some (HumanMessage "h1" (ContentString "draft")) ∧
    sub_context sub = None.
Proof.
  split; [reflexivity|]. split; [reflexivity|].
  destruct (submit_after_thread_switch None "h1" sampleMint (streamOf [] false)
              (setArtifactContext {[ "panel" := "open" ]} (typed " draft "))
              eq_refl eq_refl) as (sub & Hsub & Hlast & Hctx & _).
  exists sub. split; [exact Hsub|]. split; [exact Hlast | exact Hctx].
Defined.

(** ** The lucky button on the welcome screen *)

(** X17: the lucky button is only shown before the chat has started, that
    is with no confirmed message; so a click on it, when it is enabled,
    dispatches exactly one message, the human message with the drawn prompt,
    and the projection appends just that message. *)
Theorem lucky_button_first_message isClient randomIndex newId mint stream st :
  luckyButtonShown isClient stream st = true →
  isLoading stream = false →
  randomIndex < length luckyPrompts →
  ∃ prompt sub,
    luckyPrompts !! randomIndex = Some prompt ∧
    messages stream = [] ∧
    snd (handleLuckyClick randomIndex newId mint stream st) = [Submit sub] ∧
    sub_messages sub = [HumanMessage newId (ContentString prompt)] ∧
    ∀ prev : StreamValues,
      sv_messages (optimisticValues (sub_options sub) prev)
        = Some (default [] (sv_messages prev)
                  ++ [HumanMessage newId (ContentString prompt)]).
Proof.
  intros Hshown Hload Hidx.
  assert (Hnil : messages stream = []).
  { unfold luckyButtonShown in Hshown.
    apply andb_true_iff in Hshown as [Hshown _].
    apply andb_true_iff in Hshown as [_ Hstarted].
    apply negb_true_iff in Hstarted. unfold chatStarted in Hstarted.
    apply orb_false_iff in Hstarted as [_ Hlen].
    apply negb_false_iff, Nat.eqb_eq in Hlen.
    by destruct (messages stream). }
  destruct (lookup_lt_is_Some_2 luckyPrompts randomIndex Hidx) as [prompt Hp].
  exists prompt. eexists. split; [exact Hp|]. split; [exact Hnil|].
  unfold handleLuckyClick. rewrite Hload, Hp, Hnil. cbn [snd].
  split; [reflexivity|]. split; [reflexivity|]. intros prev. reflexivity.
Qed.

Lemma lucky_button_first_message_witness :
  luckyButtonShown true (streamOf [] false) (typed "draft") = true ∧
  isLoading (streamOf [] false) = false ∧
  19 < length luckyPrompts ∧
  ∃ sub,
    snd (handleLuckyClick 19 "h1" sampleMint (streamOf [] false) (typed "draft"))
      = [Submit sub] ∧
    sub_messages sub
      = [HumanMessage "h1"
           (ContentString "Create a plant care and garden tracker")].
Proof.
  assert (Hidx : 19 < length luckyPrompts) by (simpl; lia).
  split; [reflexivity|]. split; [reflexivity|]. split; [exact Hidx|].
  destruct (lucky_button_first_message true 19 "h1" sampleMint
              (streamOf [] false) (typed "draft") eq_refl eq_refl Hidx)
    as (prompt & sub & Hp & _ & Hsub & Hmsgs & _).
  exists sub. split; [exact Hsub|]. rewrite Hmsgs.
  cbn in Hp. injection Hp as <-. reflexivity.
Defined.

(** ** Reconciling what is already reconciled *)

Lemma outstandingCalls_app (l1 l2 : list Message) :
  outstandingCalls (l1 ++ l2)
  = filter (λ tc, ¬ answeredIn l2 (tc_id tc)) (outstandingCalls l1)
      ++ unanswered l2.
Proof. unfold outstandingCalls. by rewrite foldl_app, scan_from. Qed.

Lemma unanswered_no_calls (l : list Message) :
  Forall (λ m, calls_of m = []) l → unanswered l = [].
Proof.
  induction 1 as [|m l Hm _ IH]; [reflexivity|].
  cbn [unanswered]. by rewrite Hm, filter_nil, IH.
Qed.

Lemma filter_none {A} (P : A → Prop) `{!∀ x, Decision (P x)} (l : list A) :
  Forall (λ x, ¬ P x) l → filter P l = [].
Proof.
  induction 1 as [|x l Hx _ IH]; [reflexivity|].
  by rewrite filter_cons_False.
Qed.

Lemma answers_of_synthesized (mint : nat → string) (tcs : list ToolCall) :
  answer_of <$> imap (synthesize mint) tcs = (λ tc, Some (tc_id tc)) <$> tcs.
Proof.
  revert mint. induction tcs as [|tc tcs IH]; intros mint; [reflexivity|].
  cbn [imap fmap list_fmap]. f_equal. apply IH.
Qed.

(** X18: nothing is left to reconcile after a submit. (The reconciler is
    the one modelled from the design's section 4.1.) Once the increment a
    submit dispatched follows the confirmed messages, a further run of the
    reconciler returns no synthetic result: every call that was unanswered
    now has its result, and the increment itself emits no call. *)
Theorem nothing_left_to_reconcile newId mint stream st :
  whitespaceOnly (input st) = false →
  isLoading stream = false →
  ∃ sub,
    snd (handleSubmit newId mint stream st) = [Submit sub] ∧
    ∀ mint' : nat → string,
      ensureToolCallsHaveResponses mint' (messages stream ++ sub_messages sub)
      = [].
Proof.
  intros Hws Hload. dispatch_handleSubmit Hws Hload.
  eexists. split; [reflexivity|]. intros mint'. cbn [sub_messages].
  unfold ensureToolCallsHaveResponses at 1. rewrite outstandingCalls_app.
  rewrite unanswered_no_calls, app_nil_r.
  - rewrite filter_none; [reflexivity|].
    apply Forall_forall. intros tc Htc Hna. apply Hna.
    unfold answeredIn, ensureToolCallsHaveResponses.
    rewrite fmap_app, answers_of_synthesized, elem_of_app. left.
    apply list_elem_of_fmap. by exists tc.
  - apply Forall_app. split; [|by repeat constructor].
    unfold ensureToolCallsHaveResponses. apply Forall_forall. intros m Hm.
    apply elem_of_lookup_imap in Hm as (k & tc & -> & _). reflexivity.
Qed.

(** After the agent's unanswered call [c1] and the user's "thanks": the
    sequence with the dispatched increment has nothing outstanding. *)
Lemma nothing_left_to_reconcile_witness :
  whitespaceOnly (input (typed "thanks")) = false ∧
  isLoading (streamOf [H1; AI1] false) = false ∧
  ensureToolCallsHaveResponses sampleMint [H1; AI1]
    = [ToolMessage "synthetic-0" "c1" SKIPPED_CONTENT] ∧
  ∃ sub,
    snd (handleSubmit "h2" sampleMint (streamOf [H1; AI1] false) (typed "thanks"))
      = [Submit sub] ∧
    ensureToolCallsHaveResponses sampleMint
      (messages (streamOf [H1; AI1] false) ++ sub_messages sub) = [].
Proof.
  split; [reflexivity|]. split; [reflexivity|]. split; [reflexivity|].
  destruct (nothing_left_to_reconcile "h2" sampleMint (streamOf [H1; AI1] false)
              (typed "thanks") eq_refl eq_refl) as (sub & Hsub & Hnone).
  exists sub. split; [exact Hsub | apply Hnone].
Defined.

(** ** Who writes the error cell *)

(** X19: the "last reported error text" cell belongs to the error effect.
    No submit handler, nor the message effect, writes it, and none of them
    raises a toast. *)
Theorem error_cell_owned_by_error_effect randomIndex newId mint stream st msgs :
  lastError (fst (handleSubmit newId mint stream st)) = lastError st ∧
  lastError (fst (handleSubmitUpload newId mint stream st)) = lastError st ∧
  lastError (fst (handleLuckyClick randomIndex newId mint stream st))
    = lastError st ∧
  lastError (messagesEffect msgs st) = lastError st ∧
  toastTexts (snd (handleSubmit newId mint stream st)
                ++ snd (handleSubmitUpload newId mint stream st)
                ++ snd (handleLuckyClick randomIndex newId mint stream st)) = [].
Proof.
  unfold handleSubmit, handleSubmitUpload, handleLuckyClick, messagesEffect.
  destruct ((String.length (trim (input st)) =? 0)%nat || isLoading stream),
    ((String.length (trim (input st)) =? 0)%nat
       && (length (contentBlocks st) =? 0)%nat || isLoading stream),
    (isLoading stream), (_ && _ && _); repeat split; reflexivity.
Qed.
